(** * API Behavior Tracker: the recorder middleware and the analytics queries

    A shallow embedding of [app.py].  The Flask hooks [log_request] and
    [log_response] become computations in a small state-and-exception
    monad over a [World] that holds the wall clock, the request context,
    the logger, the CloudWatch stream, the SQLAlchemy session and the
    [api_requests] table.  The analytics views become functions of the
    instant [datetime.utcnow()] and of the table's rows.

    Conventions.
    - A [DateTime] is an integer number of microseconds (the resolution of
      Python's [datetime]); [time.time()] is a rational number of seconds.
      The views compute [now - hours] on unbounded integers; the module
      [Bounded] puts Python's [timedelta] and [datetime] range checks, and
      the [OverflowError] they raise, in front of each view.
    - Python floats and PostgreSQL [numeric]/[double precision] values are
      idealised as rationals [Q]: binary rounding error is not modelled.
    - [exn] stands for subclasses of Python's [Exception], which is what
      the [except Exception] clauses of the source catch. *)

From Stdlib Require Import ZArith QArith Qround Qabs List Ascii String Bool Lia.
From Stdlib Require Import Permutation Sorted.
From Stdlib Require Import Lqa.
Import ListNotations.
Open Scope string_scope.
Open Scope list_scope.
Open Scope Z_scope.

(** ** Exceptions, outcomes *)

Inductive exn : Type :=
| AttributeError (attr : string)
| ClientError (code : string)
| OperationalError (msg : string)
| DataError (msg : string)
| TypeError (msg : string)
| ZeroDivisionError
| OverflowError (msg : string).

Inductive outcome (A : Type) : Type :=
| Ok (a : A)
| Raise (e : exn).
Arguments Ok {A} a.
Arguments Raise {A} e.

(** ** Database model: class APIRequest *)

Record APIRequest : Type := {
  id : Z;
  endpoint : string;
  method : string;
  status_code : Z;
  latency_ms : Q;
  timestamp : Z;
  ip_address : option string;
  user_agent : option string
}.

(** A transient instance, as built by [APIRequest(endpoint=..., ...)]: the
    primary key and the [timestamp] default are filled in by the flush. *)
Record Transient : Type := {
  t_endpoint : string;
  t_method : string;
  t_status_code : Z;
  t_latency_ms : Q;
  t_ip_address : option string;
  t_user_agent : option string
}.

(** Column types: String(500), String(10), String(45), String(500).
    PostgreSQL refuses a value longer than its [varchar(n)] column. *)
Definition fits (n : nat) (s : string) : bool := (String.length s <=? n)%nat.

Definition fits_opt (n : nat) (o : option string) : bool :=
  match o with
  | Some s => fits n s
  | None => true
  end.

Definition fits_schema (t : Transient) : bool :=
  fits 500 (t_endpoint t) && fits 10 (t_method t) &&
  fits_opt 45 (t_ip_address t) && fits_opt 500 (t_user_agent t).

(** INSERT of one transient row: the store assigns [id] from its sequence,
    the column default [datetime.utcnow] supplies [timestamp]. *)
Definition insert_row (next : Z) (now : Z) (t : Transient) : APIRequest :=
  {| id := next;
     endpoint := t_endpoint t;
     method := t_method t;
     status_code := t_status_code t;
     latency_ms := t_latency_ms t;
     timestamp := now;
     ip_address := t_ip_address t;
     user_agent := t_user_agent t |}.

Fixpoint flush (now : Z) (next : Z) (pending : list Transient) : list APIRequest :=
  match pending with
  | [] => []
  | t :: ts => insert_row next now t :: flush now (next + 1) ts
  end.

(** ** The world the hooks run in *)

Inductive level : Type := INFO | WARNING | ERROR.

Record LogEvent : Type := {
  ev_timestamp : Z;        (* int(time.time() * 1000) *)
  ev_method : string;      (* the fields interpolated into 'message' *)
  ev_endpoint : string;
  ev_status_code : Z;
  ev_latency_ms : Q        (* the value handed to ':.2f', not its digits *)
}.

Record World : Type := {
  wall_clock : Q;                        (* what time.time() reads now *)
  start_time : option Q;                 (* request.start_time, once set *)
  sink_fault : option exn;               (* put_log_events raises this *)
  store_fault : option exn;              (* the store refuses with this *)
  sink_events : list LogEvent;           (* the CloudWatch log stream *)
  logger : list (level * exn);           (* logger.warning / logger.error *)
  session_new : list Transient;          (* db.session: pending objects *)
  api_requests : list APIRequest;        (* committed rows of the table *)
  api_requests_id_seq : Z                (* next value of the id sequence *)
}.

Definition set_start_time (v : option Q) (w : World) : World :=
  {| wall_clock := wall_clock w; start_time := v;
     sink_fault := sink_fault w; store_fault := store_fault w;
     sink_events := sink_events w; logger := logger w;
     session_new := session_new w; api_requests := api_requests w;
     api_requests_id_seq := api_requests_id_seq w |}.

Definition set_sink_events (v : list LogEvent) (w : World) : World :=
  {| wall_clock := wall_clock w; start_time := start_time w;
     sink_fault := sink_fault w; store_fault := store_fault w;
     sink_events := v; logger := logger w;
     session_new := session_new w; api_requests := api_requests w;
     api_requests_id_seq := api_requests_id_seq w |}.

Definition set_logger (v : list (level * exn)) (w : World) : World :=
  {| wall_clock := wall_clock w; start_time := start_time w;
     sink_fault := sink_fault w; store_fault := store_fault w;
     sink_events := sink_events w; logger := v;
     session_new := session_new w; api_requests := api_requests w;
     api_requests_id_seq := api_requests_id_seq w |}.

Definition set_session_new (v : list Transient) (w : World) : World :=
  {| wall_clock := wall_clock w; start_time := start_time w;
     sink_fault := sink_fault w; store_fault := store_fault w;
     sink_events := sink_events w; logger := logger w;
     session_new := v; api_requests := api_requests w;
     api_requests_id_seq := api_requests_id_seq w |}.

Definition set_table (rows : list APIRequest) (next : Z) (w : World) : World :=
  {| wall_clock := wall_clock w; start_time := start_time w;
     sink_fault := sink_fault w; store_fault := store_fault w;
     sink_events := sink_events w; logger := logger w;
     session_new := session_new w; api_requests := rows;
     api_requests_id_seq := next |}.

(** The environment moves on between two hooks: the clock advances and the
    collaborators become reachable or unreachable. *)
Definition set_outside (clock : Q) (sink store : option exn) (w : World) : World :=
  {| wall_clock := clock; start_time := start_time w;
     sink_fault := sink; store_fault := store;
     sink_events := sink_events w; logger := logger w;
     session_new := session_new w; api_requests := api_requests w;
     api_requests_id_seq := api_requests_id_seq w |}.

(** ** The monad *)

Definition M (A : Type) : Type := World -> outcome A * World.

Definition ret {A} (a : A) : M A := fun w => (Ok a, w).

Definition bind {A B} (m : M A) (k : A -> M B) : M B :=
  fun w =>
    match m w with
    | (Ok a, w') => k a w'
    | (Raise e, w') => (Raise e, w')
    end.

Definition raise {A} (e : exn) : M A := fun w => (Raise e, w).

(** [try: body  except Exception as e: handler e].  Effects performed by
    [body] before it raised stay in place. *)
Definition try_except {A} (body : M A) (handler : exn -> M A) : M A :=
  fun w =>
    match body w with
    | (Ok a, w') => (Ok a, w')
    | (Raise e, w') => handler e w'
    end.

Declare Scope hook_scope.
Delimit Scope hook_scope with hook.
Notation "x <- m ;; k" := (bind m (fun x => k))
  (at level 100, m at next level, right associativity) : hook_scope.
Notation "m ;; k" := (bind m (fun _ => k))
  (at level 100, right associativity) : hook_scope.
Open Scope hook_scope.

Definition get {A} (f : World -> A) : M A := fun w => (Ok (f w), w).
Definition modify (f : World -> World) : M unit := fun w => (Ok tt, f w).

(** *** Primitive operations of the collaborators *)

Definition time_time : M Q := get wall_clock.

(** int(x): truncation towards zero. *)
Definition py_int (x : Q) : Z :=
  if Qle_bool 0 x then Qfloor x else Qceiling x.

(** datetime.utcnow(), in microseconds. *)
Definition utcnow_of (clock : Q) : Z := Qfloor (clock * 1000000).

(** Reading the attribute [request.start_time]. *)
Definition request_start_time : M Q :=
  fun w =>
    match start_time w with
    | Some t => (Ok t, w)
    | None => (Raise (AttributeError "start_time"), w)
    end.

Definition logger_warning (e : exn) : M unit :=
  modify (fun w => set_logger (logger w ++ [(WARNING, e)]) w).

Definition logger_error (e : exn) : M unit :=
  modify (fun w => set_logger (logger w ++ [(ERROR, e)]) w).

Definition put_log_events (ev : LogEvent) : M unit :=
  fun w =>
    match sink_fault w with
    | Some e => (Raise e, w)
    | None => (Ok tt, set_sink_events (sink_events w ++ [ev]) w)
    end.

Definition session_add (t : Transient) : M unit :=
  modify (fun w => set_session_new (session_new w ++ [t]) w).

(** db.session.commit(): flush the pending objects and commit.  The
    store refuses when it is unreachable or when a value does not fit its
    column; nothing is written then. *)
Definition session_commit : M unit :=
  fun w =>
    match store_fault w with
    | Some e => (Raise e, w)
    | None =>
        if forallb fits_schema (session_new w)
        then (Ok tt,
              set_session_new []
                (set_table
                   (api_requests w ++
                    flush (utcnow_of (wall_clock w)) (api_requests_id_seq w)
                      (session_new w))
                   (api_requests_id_seq w + Z.of_nat (List.length (session_new w)))
                   w))
        else (Raise (DataError "value too long for type character varying"), w)
    end.

Definition session_rollback : M unit :=
  modify (set_session_new []).

(** ** Flask request and response *)

Record Request : Type := {
  path : string;
  req_method : string;
  remote_addr : option string;
  headers : list (string * string)
}.

Record Response : Type := {
  resp_status_code : Z;
  resp_data : string
}.

(** Header names compare without regard to case. *)
Definition lower_ascii (c : ascii) : ascii :=
  let n := nat_of_ascii c in
  if ((65 <=? n) && (n <=? 90))%nat then ascii_of_nat (n + 32) else c.

Fixpoint lower (s : string) : string :=
  match s with
  | EmptyString => EmptyString
  | String c s' => String (lower_ascii c) (lower s')
  end.

(** request.headers.get(key, default) *)
Fixpoint headers_get (hs : list (string * string)) (key default : string) : string :=
  match hs with
  | [] => default
  | (k, v) :: hs' =>
      if String.eqb (lower k) (lower key) then v else headers_get hs' key default
  end.

(** The boto3 client held in the module global [cloudwatch_logs];
    [None] when no AWS credentials are configured. *)
Record CloudWatchClient : Type := {
  logGroupName : string;
  logStreamName : string
}.

(** ** The middleware *)

(** @app.before_request *)
Definition log_request : M unit :=
  t <- time_time ;;
  modify (set_start_time (Some t)).

Definition new_APIRequest (request : Request) (response : Response)
    (latency : Q) : Transient :=
  {| t_endpoint := path request;
     t_method := req_method request;
     t_status_code := resp_status_code response;
     t_latency_ms := latency;
     t_ip_address := remote_addr request;
     t_user_agent := Some (headers_get (headers request) "User-Agent" "") |}.

(** The body of the first [try]: one log line to CloudWatch. *)
Definition emit (request : Request) (response : Response) (latency : Q) : M unit :=
  t <- time_time ;;
  put_log_events
    {| ev_timestamp := py_int (t * 1000);
       ev_method := req_method request;
       ev_endpoint := path request;
       ev_status_code := resp_status_code response;
       ev_latency_ms := latency |}.

(** The first guarded block: [if cloudwatch_logs: try ... except ...]. *)
Definition mirror (cloudwatch_logs : option CloudWatchClient)
    (request : Request) (response : Response) (latency : Q) : M unit :=
  match cloudwatch_logs with
  | Some _ => try_except (emit request response latency) logger_warning
  | None => ret tt
  end.

(** The body of the second [try]: build the row, add, commit. *)
Definition persist (request : Request) (response : Response) (latency : Q) : M unit :=
  session_add (new_APIRequest request response latency) ;;
  session_commit.

(** @app.after_request *)
Definition log_response (cloudwatch_logs : option CloudWatchClient)
    (request : Request) (response : Response) : M Response :=
  t <- time_time ;;
  t0 <- request_start_time ;;
  let latency := ((t - t0) * 1000)%Q in
  mirror cloudwatch_logs request response latency ;;
  try_except (persist request response latency)
             (fun e => logger_error e ;; session_rollback) ;;
  ret response.

(** ** Serving requests

    One request/response cycle as Flask drives it: the before-request hook,
    the view (which produces [cy_response] and only reads the table), the
    after-request hook.  The clock readings and the reachability of the
    two collaborators are given by the environment. *)

Record Cycle : Type := {
  cy_request : Request;
  cy_response : Response;
  cy_arrival : Q;
  cy_departure : Q;
  cy_sink_fault : option exn;
  cy_store_fault : option exn
}.

Definition serve_one (cloudwatch_logs : option CloudWatchClient) (c : Cycle)
  : M Response :=
  modify (set_outside (cy_arrival c) (cy_sink_fault c) (cy_store_fault c)) ;;
  log_request ;;
  modify (set_outside (cy_departure c) (cy_sink_fault c) (cy_store_fault c)) ;;
  log_response cloudwatch_logs (cy_request c) (cy_response c).

Fixpoint serve (cloudwatch_logs : option CloudWatchClient) (cs : list Cycle)
  : M (list Response) :=
  match cs with
  | [] => ret []
  | c :: cs' =>
      r <- serve_one cloudwatch_logs c ;;
      rs <- serve cloudwatch_logs cs' ;;
      ret (r :: rs)
  end.

(** The row that the cycle [c] hands to the store. *)
Definition cycle_row (c : Cycle) : Transient :=
  new_APIRequest (cy_request c) (cy_response c)
    ((cy_departure c - cy_arrival c) * 1000)%Q.

(** Persistence succeeds for [c]: the store is reachable and takes the row. *)
Definition persists (c : Cycle) : bool :=
  match cy_store_fault c with
  | Some _ => false
  | None => fits_schema (cycle_row c)
  end.

(** ** SQL and Python building blocks of the analytics views *)

Definition bind_outcome {A B} (o : outcome A) (k : A -> outcome B) : outcome B :=
  match o with
  | Ok a => k a
  | Raise e => Raise e
  end.

Fixpoint traverse {A B} (f : A -> outcome B) (l : list A) : outcome (list B) :=
  match l with
  | [] => Ok []
  | a :: l' =>
      bind_outcome (f a) (fun b =>
      bind_outcome (traverse f l') (fun bs => Ok (b :: bs)))
  end.

(** timedelta(hours=h), in microseconds. *)
Definition timedelta_hours (h : Z) : Z := h * 3600000000.

(** APIRequest.timestamp >= time_threshold *)
Definition since (time_threshold : Z) (r : APIRequest) : bool :=
  time_threshold <=? timestamp r.

(** APIRequest.status_code >= 400 *)
Definition is_error (r : APIRequest) : bool := 400 <=? status_code r.

(** func.count *)
Definition sql_count {A} (l : list A) : Z := Z.of_nat (List.length l).

Definition Qsum (l : list Q) : Q := fold_right Qplus 0%Q l.

(** func.avg, func.min, func.max: NULL on no rows. *)
Definition sql_avg (l : list Q) : option Q :=
  match l with
  | [] => None
  | _ :: _ => Some (Qsum l / inject_Z (sql_count l))%Q
  end.

Definition Qmin (a b : Q) : Q := if Qle_bool a b then a else b.
Definition Qmax (a b : Q) : Q := if Qle_bool a b then b else a.

Definition sql_min (l : list Q) : option Q :=
  match l with
  | [] => None
  | a :: l' => Some (fold_left Qmin l' a)
  end.

Definition sql_max (l : list Q) : option Q :=
  match l with
  | [] => None
  | a :: l' => Some (fold_left Qmax l' a)
  end.

(** func.coalesce(x, d) *)
Definition coalesce {A} (x : option A) (d : A) : A :=
  match x with
  | Some v => v
  | None => d
  end.

(** The SQL operator [/]: the store raises on a zero divisor. *)
Definition sql_div (a b : Q) : outcome Q :=
  if Qeq_bool b 0 then Raise (DataError "division by zero") else Ok (a / b)%Q.

(** Python's [/] on numbers. *)
Definition py_truediv (a b : Q) : outcome Q :=
  if Qeq_bool b 0 then Raise ZeroDivisionError else Ok (a / b)%Q.

(** Python's [x or d]: [d] when [x] is falsy (None or zero). *)
Definition py_or (x : Z) (d : Z) : Z := if x =? 0 then d else x.

Definition py_or_opt (x : option Q) (d : Q) : Q :=
  match x with
  | Some v => if Qeq_bool v 0 then d else v
  | None => d
  end.

Definition scale (ndigits : nat) : positive := Pos.of_nat (10 ^ ndigits).

(** func.round(x, n) on numeric: ties go away from zero.  The result is
    kept in lowest terms. *)
Definition sql_round (x : Q) (ndigits : nat) : Q :=
  let s := scale ndigits in
  if Qle_bool 0 x
  then Qred (Qfloor (x * (Zpos s # 1) + (1 # 2)) # s)
  else Qred ((- Qfloor ((- x) * (Zpos s # 1) + (1 # 2))) # s).

(** Python's round(x, n): ties go to the even neighbour.  The result is
    kept in lowest terms. *)
Definition py_round (x : Q) (ndigits : nat) : Q :=
  let s := scale ndigits in
  let y := (x * (Zpos s # 1))%Q in
  let f := Qfloor y in
  match (y - inject_Z f ?= 1 # 2)%Q with
  | Lt => Qred (f # s)
  | Gt => Qred ((f + 1) # s)
  | Eq => if Z.even f then Qred (f # s) else Qred ((f + 1) # s)
  end.

(** GROUP BY endpoint, method *)
Definition pair_key : Type := string * string.

Definition key_of (r : APIRequest) : pair_key := (endpoint r, method r).

Definition key_eq_dec (a b : pair_key) : {a = b} + {a <> b}.
Proof. decide equality; apply string_dec. Defined.

Definition key_eqb (a b : pair_key) : bool :=
  if key_eq_dec a b then true else false.

Definition group_keys (rows : list APIRequest) : list pair_key :=
  nodup key_eq_dec (map key_of rows).

Definition group (k : pair_key) (rows : list APIRequest) : list APIRequest :=
  filter (fun r => key_eqb (key_of r) k) rows.

(** ORDER BY ... DESC, as a stable insertion sort on the key order
    [geb a b], read "a sorts no later than b". *)
Section OrderBy.
Context {A : Type}.
Variable geb : A -> A -> bool.

Fixpoint insert_desc (x : A) (l : list A) : list A :=
  match l with
  | [] => [x]
  | y :: l' => if geb x y then x :: y :: l' else y :: insert_desc x l'
  end.

Definition order_by_desc (l : list A) : list A :=
  fold_right insert_desc [] l.
End OrderBy.

(** LIMIT n: PostgreSQL rejects a negative count. *)
Definition sql_limit {A} (n : Z) (l : list A) : outcome (list A) :=
  if n <? 0
  then Raise (DataError "LIMIT must not be negative")
  else Ok (firstn (Z.to_nat n) l).

(** LEFT OUTER JOIN of the per-pair totals with the per-pair error counts,
    ON both keys equal: a total without a partner is kept, with NULL. *)
Definition outerjoin_row (errors : list (pair_key * Z)) (t : pair_key * Z)
  : list (pair_key * Z * option Z) :=
  match filter (fun e => key_eqb (fst t) (fst e)) errors with
  | [] => [(fst t, snd t, None)]
  | matches => map (fun e => (fst t, snd t, Some (snd e))) matches
  end.

Definition outerjoin (totals errors : list (pair_key * Z))
  : list (pair_key * Z * option Z) :=
  flat_map (outerjoin_row errors) totals.

(** ** The analytics views

    Each takes [now], the value of [datetime.utcnow()] at the call, and the
    committed rows of [api_requests]. *)

(** *** /api/analytics/most-used *)

Record MostUsedRow : Type := {
  mu_endpoint : string;
  mu_method : string;
  mu_request_count : Z
}.

Definition counts_by_pair (rows : list APIRequest) : list (pair_key * Z) :=
  map (fun k => (k, sql_count (group k rows))) (group_keys rows).

Definition get_most_used_endpoints (now : Z) (rows : list APIRequest)
    (limit hours : Z) : outcome (Z * list MostUsedRow) :=
  let time_threshold := now - timedelta_hours hours in
  let grouped := counts_by_pair (filter (since time_threshold) rows) in
  let ordered := order_by_desc (fun a b => snd b <=? snd a) grouped in
  bind_outcome (sql_limit limit ordered) (fun results =>
  Ok (hours,
      map (fun r => {| mu_endpoint := fst (fst r);
                       mu_method := snd (fst r);
                       mu_request_count := snd r |}) results)).

(** *** /api/analytics/error-rates *)

Record ErrorRateRow : Type := {
  er_endpoint : string;
  er_method : string;
  er_total_requests : Z;
  er_error_count : Z;
  er_error_rate_percent : Q
}.

Definition error_rate_row (j : pair_key * Z * option Z) : outcome ErrorRateRow :=
  let '(k, total, errors) := j in
  bind_outcome
    (sql_div (inject_Z (coalesce errors 0) * 100) (inject_Z total))
    (fun rate =>
       Ok {| er_endpoint := fst k;
             er_method := snd k;
             er_total_requests := total;
             er_error_count := coalesce errors 0;
             er_error_rate_percent := sql_round rate 2 |}).

Definition get_error_rates (now : Z) (rows : list APIRequest) (hours : Z)
  : outcome (Z * list ErrorRateRow) :=
  let time_threshold := now - timedelta_hours hours in
  let total_requests := counts_by_pair (filter (since time_threshold) rows) in
  let error_requests :=
    counts_by_pair
      (filter (fun r => since time_threshold r && is_error r) rows) in
  bind_outcome
    (traverse error_rate_row (outerjoin total_requests error_requests))
    (fun computed =>
       Ok (hours,
           order_by_desc
             (fun a b => Qle_bool (er_error_rate_percent b) (er_error_rate_percent a))
             computed)).

(** *** /api/analytics/response-times *)

Record ResponseTimeRow : Type := {
  rt_endpoint : string;
  rt_method : string;
  rt_avg_latency_ms : Q;
  rt_min_latency_ms : Q;
  rt_max_latency_ms : Q;
  rt_request_count : Z
}.

(** One result row of the grouped query, before Python touches it. *)
Record LatencyGroup : Type := {
  lg_key : pair_key;
  lg_avg_latency : option Q;
  lg_min_latency : option Q;
  lg_max_latency : option Q;
  lg_request_count : Z
}.

Definition latency_group (rows : list APIRequest) (k : pair_key) : LatencyGroup :=
  let ls := map latency_ms (group k rows) in
  {| lg_key := k;
     lg_avg_latency := sql_avg ls;
     lg_min_latency := sql_min ls;
     lg_max_latency := sql_max ls;
     lg_request_count := sql_count (group k rows) |}.

(** float(x): a NULL column value is not a number. *)
Definition py_float (x : option Q) : outcome Q :=
  match x with
  | Some v => Ok v
  | None => Raise (TypeError "float() argument must be a string or a real number")
  end.

(** PostgreSQL sorts NULL first under DESC. *)
Definition opt_geb (a b : option Q) : bool :=
  match a, b with
  | None, _ => true
  | Some _, None => false
  | Some x, Some y => Qle_bool y x
  end.

Definition response_time_row (g : LatencyGroup) : outcome ResponseTimeRow :=
  bind_outcome (py_float (lg_avg_latency g)) (fun avg =>
  bind_outcome (py_float (lg_min_latency g)) (fun mn =>
  bind_outcome (py_float (lg_max_latency g)) (fun mx =>
  Ok {| rt_endpoint := fst (lg_key g);
        rt_method := snd (lg_key g);
        rt_avg_latency_ms := py_round avg 2;
        rt_min_latency_ms := py_round mn 2;
        rt_max_latency_ms := py_round mx 2;
        rt_request_count := lg_request_count g |}))).

Definition get_average_response_times (now : Z) (rows : list APIRequest)
    (hours : Z) : outcome (Z * list ResponseTimeRow) :=
  let time_threshold := now - timedelta_hours hours in
  let in_window := filter (since time_threshold) rows in
  let grouped := map (latency_group in_window) (group_keys in_window) in
  let results :=
    order_by_desc (fun a b => opt_geb (lg_avg_latency a) (lg_avg_latency b))
      grouped in
  bind_outcome (traverse response_time_row results) (fun out =>
  Ok (hours, out)).

(** *** /api/analytics/summary *)

Record Summary : Type := {
  total_requests : Z;
  error_count : Z;
  error_rate_percent : Q;
  avg_latency_ms : Q;
  unique_endpoints : Z
}.

Definition get_summary (now : Z) (rows : list APIRequest) (hours : Z)
  : outcome (Z * Summary) :=
  let time_threshold := now - timedelta_hours hours in
  let total_requests' := sql_count (filter (since time_threshold) rows) in
  let error_count' :=
    sql_count (filter (fun r => since time_threshold r && is_error r) rows) in
  let avg_latency :=
    sql_avg (map latency_ms (filter (since time_threshold) rows)) in
  let unique_endpoints' :=
    sql_count
      (nodup string_dec (map endpoint (filter (since time_threshold) rows))) in
  bind_outcome
    (py_truediv (inject_Z (py_or error_count' 0) * 100)
                (inject_Z (py_or total_requests' 1)))
    (fun rate =>
       Ok (hours,
           {| total_requests := py_or total_requests' 0;
              error_count := py_or error_count' 0;
              error_rate_percent := py_round rate 2;
              avg_latency_ms := py_round (py_or_opt avg_latency 0) 2;
              unique_endpoints := py_or unique_endpoints' 0 |})).

(** *** /api/requests *)

Inductive json : Type :=
| JNull
| JInt (z : Z)
| JFloat (q : Q)
| JStr (s : string)
| JIsoFormat (t : Z).     (* the string timestamp.isoformat() renders *)

Definition json_opt_str (o : option string) : json :=
  match o with
  | Some s => JStr s
  | None => JNull
  end.

Definition to_dict (self : APIRequest) : list (string * json) :=
  [ ("id", JInt (id self));
    ("endpoint", JStr (endpoint self));
    ("method", JStr (method self));
    ("status_code", JInt (status_code self));
    ("latency_ms", JFloat (latency_ms self));
    ("timestamp", JIsoFormat (timestamp self));
    ("ip_address", json_opt_str (ip_address self));
    ("user_agent", json_opt_str (user_agent self)) ].

Record RecentRequests : Type := {
  count : Z;
  requests : list (list (string * json))
}.

(** The rows the query of [get_recent_requests] selects. *)
Definition recent_rows (now : Z) (rows : list APIRequest) (limit hours : Z)
  : outcome (list APIRequest) :=
  let time_threshold := now - timedelta_hours hours in
  sql_limit limit
    (order_by_desc (fun a b => timestamp b <=? timestamp a)
       (filter (since time_threshold) rows)).

Definition get_recent_requests (now : Z) (rows : list APIRequest)
    (limit hours : Z) : outcome RecentRequests :=
  bind_outcome (recent_rows now rows limit hours) (fun requests' =>
  Ok {| count := sql_count requests';
        requests := map to_dict requests' |}).

(** ** Sample data used by the examples *)

Definition hour : Z := 3600000000.

Definition sample (i : Z) (ep m : string) (status : Z) (ts : Z) : APIRequest :=
  {| id := i; endpoint := ep; method := m; status_code := status;
     latency_ms := 5 # 2; timestamp := ts;
     ip_address := Some "127.0.0.1"; user_agent := Some "curl/8.0" |}.

(** ** Auxiliary notions used in the statements *)

(** The world in which the second [try] block of [log_response] starts. *)
Definition after_mirror (cloudwatch_logs : option CloudWatchClient)
    (request : Request) (response : Response) (t0 : Q) (w : World) : World :=
  snd (mirror cloudwatch_logs request response
         ((wall_clock w - t0) * 1000)%Q w).

(** The table as the store keeps it: ids are distinct and below the
    sequence's next value. *)
Definition store_wf (w : World) : Prop :=
  NoDup (map id (api_requests w)) /\
  Forall (fun r => id r < api_requests_id_seq w) (api_requests w).

(** The same world with a reachable sink. *)
Definition sink_up (w : World) : World :=
  set_outside (wall_clock w) None (store_fault w) w.

(** A world at start-up: empty table, nothing logged. *)
Definition boot (clock : Q) (sink store : option exn) : World :=
  {| wall_clock := clock; start_time := None;
     sink_fault := sink; store_fault := store;
     sink_events := []; logger := []; session_new := [];
     api_requests := []; api_requests_id_seq := 1 |}.

Definition sample_request : Request :=
  {| path := "/x"; req_method := "GET"; remote_addr := Some "10.0.0.7";
     headers := [("Accept", "*/*"); ("User-Agent", "curl/8.0")] |}.

Definition sample_response : Response :=
  {| resp_status_code := 200; resp_data := "{}" |}.

Definition sample_client : CloudWatchClient :=
  {| logGroupName := "api-behavior-tracker"; logStreamName := "api-requests" |}.

Definition sample_cycle (sink store : option exn) : Cycle :=
  {| cy_request := sample_request; cy_response := sample_response;
     cy_arrival := 10; cy_departure := 21 # 2;
     cy_sink_fault := sink; cy_store_fault := store |}.

(** A world in the middle of a cycle: [log_request] has run. *)
Definition midway (sink store : option exn) : World :=
  set_outside (21 # 2) sink store (snd (log_request (boot 10 sink store))).

Definition store_down : World :=
  midway None (Some (OperationalError "connection refused")).

Definition sink_down : World :=
  midway (Some (ClientError "ThrottlingException")) None.

(** The rows a run of cycles adds to the table, the first of them taking
    the id [next]: one per cycle whose row the store takes. *)
Fixpoint appended (next : Z) (cs : list Cycle) : list APIRequest :=
  match cs with
  | [] => []
  | c :: cs' =>
      if persists c
      then insert_row next (utcnow_of (cy_departure c)) (cycle_row c)
             :: appended (next + 1) cs'
      else appended next cs'
  end.

(** The row [r] records the cycle [c]. *)
Definition records (c : Cycle) (r : APIRequest) : Prop :=
  endpoint r = path (cy_request c) /\
  method r = req_method (cy_request c) /\
  status_code r = resp_status_code (cy_response c) /\
  timestamp r = utcnow_of (cy_departure c).

(** The row of the error-rates view for the pair [k], computed directly
    from the in-window rows [W]. *)
Definition error_rate_of (W : list APIRequest) (k : pair_key) : ErrorRateRow :=
  {| er_endpoint := fst k;
     er_method := snd k;
     er_total_requests := sql_count (group k W);
     er_error_count := sql_count (filter is_error (group k W));
     er_error_rate_percent :=
       sql_round (inject_Z (sql_count (filter is_error (group k W))) * 100
                  / inject_Z (sql_count (group k W))) 2 |}.


(** Two records of the specification's window example, seen from
    [now = 100 * hour]: one two hours old, one twenty-five hours old. *)
Definition two_hours_old : APIRequest :=
  sample 1 "/x" "GET" 200 (100 * hour - 2 * hour).

Definition twenty_five_hours_old : APIRequest :=
  sample 2 "/x" "POST" 500 (100 * hour - 25 * hour).


(** Five records inside the last hour before [100 * hour], the fourth
    being the most recent. *)
Definition five_recent : list APIRequest :=
  [ sample 11 "/a" "GET" 200 (100 * hour - 50 * 60000000);
    sample 12 "/b" "GET" 200 (100 * hour - 40 * 60000000);
    sample 13 "/c" "POST" 201 (100 * hour - 30 * 60000000);
    sample 14 "/d" "GET" 404 (100 * hour - 5 * 60000000);
    sample 15 "/e" "GET" 200 (100 * hour - 20 * 60000000) ].

(** ** Start-up: the CloudWatch client

    The module-level block that fills the global [cloudwatch_logs].  The
    process environment is a list of bindings; the two boto3 calls are
    given by what they raise, if anything. *)

Fixpoint os_getenv (environ : list (string * string)) (key : string)
  : option string :=
  match environ with
  | [] => None
  | (k, v) :: environ' =>
      if String.eqb k key then Some v else os_getenv environ' key
  end.

Definition os_getenv_default (environ : list (string * string))
    (key default : string) : string :=
  match os_getenv environ key with
  | Some v => v
  | None => default
  end.

(** Truth value of what os.getenv returns: None and '' are falsy. *)
Definition truthy (o : option string) : bool :=
  match o with
  | Some (String _ _) => true
  | _ => false
  end.

(** The module globals after the block, and what it printed. *)
Record Startup : Type := {
  st_cloudwatch_logs : option CloudWatchClient;
  st_printed : list exn
}.

(** The inner [try]: create the log group, tolerating one error code. *)
Definition create_log_group_guarded (create_log_group : string -> option exn)
    (log_group_name : string) : outcome unit :=
  match create_log_group log_group_name with
  | None => Ok tt
  | Some (ClientError code) =>
      if negb (String.eqb code "ResourceAlreadyExistsException")
      then Raise (ClientError code)
      else Ok tt
  | Some e => Raise e
  end.

Definition init_cloudwatch (environ : list (string * string))
    (boto3_client : string -> option exn)
    (create_log_group : string -> option exn) : Startup :=
  let log_group_name :=
    os_getenv_default environ "CLOUDWATCH_LOG_GROUP" "api-behavior-tracker" in
  let log_stream_name :=
    os_getenv_default environ "CLOUDWATCH_LOG_STREAM" "api-requests" in
  if truthy (os_getenv environ "AWS_ACCESS_KEY_ID") &&
     truthy (os_getenv environ "AWS_SECRET_ACCESS_KEY")
  then
    match boto3_client (os_getenv_default environ "AWS_REGION" "us-east-1") with
    | Some e =>
        (* boto3.client raised: the global was not assigned *)
        {| st_cloudwatch_logs := None; st_printed := [e] |}
    | None =>
        let client := {| logGroupName := log_group_name;
                         logStreamName := log_stream_name |} in
        match create_log_group_guarded create_log_group log_group_name with
        | Ok _ => {| st_cloudwatch_logs := Some client; st_printed := [] |}
        | Raise e => {| st_cloudwatch_logs := Some client; st_printed := [e] |}
        end
    end
  else {| st_cloudwatch_logs := None; st_printed := [] |}.

(** ** Further notions used in the statements *)

Definition level_eqb (a b : level) : bool :=
  match a, b with
  | INFO, INFO | WARNING, WARNING | ERROR, ERROR => true
  | _, _ => false
  end.

(** Number of lines of one level in the log. *)
Definition count_level (lv : level) (log : list (level * exn)) : nat :=
  List.length (filter (fun x => level_eqb (fst x) lv) log).

(** The lines one cycle writes to the local log: a WARNING when a
    configured sink fails, an ERROR when the store does not take the row. *)
Definition cycle_log (cloudwatch_logs : option CloudWatchClient) (c : Cycle)
  : list (level * exn) :=
  (match cloudwatch_logs, cy_sink_fault c with
   | Some _, Some e => [(WARNING, e)]
   | _, _ => []
   end) ++
  (match cy_store_fault c with
   | Some e => [(ERROR, e)]
   | None =>
       if fits_schema (cycle_row c) then []
       else [(ERROR, DataError "value too long for type character varying")]
   end).

(** The event one cycle delivers to the stream, if any. *)
Definition cycle_event (cloudwatch_logs : option CloudWatchClient) (c : Cycle)
  : list LogEvent :=
  match cloudwatch_logs, cy_sink_fault c with
  | Some _, None =>
      [ {| ev_timestamp := py_int (cy_departure c * 1000);
           ev_method := req_method (cy_request c);
           ev_endpoint := path (cy_request c);
           ev_status_code := resp_status_code (cy_response c);
           ev_latency_ms := ((cy_departure c - cy_arrival c) * 1000)%Q |} ]
  | _, _ => []
  end.

Definition Zsum (l : list Z) : Z := fold_right Z.add 0 l.

(** Rounding to the nearest integer, ties to the even one: the numerator
    that [py_round] puts over the power of ten. *)
Definition round_half_even (y : Q) : Z :=
  let f := Qfloor y in
  match (y - inject_Z f ?= 1 # 2)%Q with
  | Lt => f
  | Gt => f + 1
  | Eq => if Z.even f then f else f + 1
  end.


Definition er_key (row : ErrorRateRow) : pair_key :=
  (er_endpoint row, er_method row).

Definition rt_key (row : ResponseTimeRow) : pair_key :=
  (rt_endpoint row, rt_method row).

(** The row the response-times view makes of a group whose aggregates
    are not NULL. *)
Definition row_of_group (g : LatencyGroup) : ResponseTimeRow :=
  {| rt_endpoint := fst (lg_key g);
     rt_method := snd (lg_key g);
     rt_avg_latency_ms := py_round (coalesce (lg_avg_latency g) 0%Q) 2;
     rt_min_latency_ms := py_round (coalesce (lg_min_latency g) 0%Q) 2;
     rt_max_latency_ms := py_round (coalesce (lg_max_latency g) 0%Q) 2;
     rt_request_count := lg_request_count g |}.

(** The one failure of [create_log_group] the start-up block tolerates. *)
Definition already_exists (e : exn) : bool :=
  match e with
  | ClientError code => String.eqb code "ResourceAlreadyExistsException"
  | _ => false
  end.

(** An environment with AWS credentials, and one with an empty key. *)
Definition environ_with_keys : list (string * string) :=
  [ ("PORT", "5000");
    ("AWS_ACCESS_KEY_ID", "AKIAEXAMPLE");
    ("AWS_SECRET_ACCESS_KEY", "secret");
    ("CLOUDWATCH_LOG_GROUP", "tracker-prod") ].

Definition environ_empty_key : list (string * string) :=
  [ ("AWS_ACCESS_KEY_ID", ""); ("AWS_SECRET_ACCESS_KEY", "secret") ].

(** ** Python's datetime arithmetic

    [datetime.utcnow() - timedelta(hours=hours)], the first statement of
    every view.  A [timedelta] holds at most 999999999 days either way; a
    [datetime] lies between 0001-01-01T00:00:00 and
    9999-12-31T23:59:59.999999.  Both constructors raise [OverflowError]
    outside these ranges. *)

Definition datetime_min : Z := -62135596800000000.
Definition datetime_max : Z := 253402300799999999.

Definition valid_datetime (d : Z) : Prop := datetime_min <= d <= datetime_max.

(** timedelta(hours=h); the number of days is [h // 24]. *)
Definition timedelta (hours : Z) : outcome Z :=
  if (-999999999 <=? hours / 24) && (hours / 24 <=? 999999999)
  then Ok (timedelta_hours hours)
  else Raise (OverflowError "days must have magnitude <= 999999999").

(** d - delta on a datetime. *)
Definition datetime_sub (d delta : Z) : outcome Z :=
  if (datetime_min <=? d - delta) && (d - delta <=? datetime_max)
  then Ok (d - delta)
  else Raise (OverflowError "date value out of range").

Definition time_threshold (now hours : Z) : outcome Z :=
  bind_outcome (timedelta hours) (datetime_sub now).

(** The views as the routes run them: the threshold is computed first,
    and the query only runs when that did not raise; in range the
    threshold is the [now - timedelta_hours hours] the query filters on. *)
Module Bounded.

Definition get_most_used_endpoints (now : Z) (rows : list APIRequest)
    (limit hours : Z) : outcome (Z * list MostUsedRow) :=
  bind_outcome (time_threshold now hours) (fun _ =>
  get_most_used_endpoints now rows limit hours).

Definition get_error_rates (now : Z) (rows : list APIRequest) (hours : Z)
  : outcome (Z * list ErrorRateRow) :=
  bind_outcome (time_threshold now hours) (fun _ =>
  get_error_rates now rows hours).

Definition get_average_response_times (now : Z) (rows : list APIRequest)
    (hours : Z) : outcome (Z * list ResponseTimeRow) :=
  bind_outcome (time_threshold now hours) (fun _ =>
  get_average_response_times now rows hours).

Definition get_summary (now : Z) (rows : list APIRequest) (hours : Z)
  : outcome (Z * Summary) :=
  bind_outcome (time_threshold now hours) (fun _ =>
  get_summary now rows hours).

Definition get_recent_requests (now : Z) (rows : list APIRequest)
    (limit hours : Z) : outcome RecentRequests :=
  bind_outcome (time_threshold now hours) (fun _ =>
  get_recent_requests now rows limit hours).

End Bounded.

(** 2026-11-03T00:00:00, in microseconds since the epoch. *)
Definition nov_3_2026 : Z := 1793664000000000.

(** A failed request two hours before that instant, a good one thirty
    hours before it. *)
Definition rows_2026 : list APIRequest :=
  [ sample 21 "/x" "GET" 500 (nov_3_2026 - 2 * hour);
    sample 22 "/x" "GET" 200 (nov_3_2026 - 30 * hour) ].

(** ** Orderings the store may return

    ORDER BY fixes the order of the keys only: among rows with equal keys
    any order may come back, and it may differ from one statement to the
    next.  [possible_order geb l l'] says that [l'] is one of the orders
    in which the rows [l] may be returned under ORDER BY ... DESC. *)
Definition possible_order {A} (geb : A -> A -> bool) (l l' : list A) : Prop :=
  Permutation l' l /\ StronglySorted (fun a b => geb a b = true) l'.

(** An answer the most-used query may give over the in-window rows [W]. *)
Definition possible_most_used (W : list APIRequest) (limit : Z)
    (results : list MostUsedRow) : Prop :=
  0 <= limit /\
  exists ordered,
    possible_order (fun a b => snd b <=? snd a) (counts_by_pair W) ordered /\
    results =
      map (fun r => {| mu_endpoint := fst (fst r);
                       mu_method := snd (fst r);
                       mu_request_count := snd r |})
          (firstn (Z.to_nat limit) ordered).

(** The rows the recent-requests query may select over [W]. *)
Definition possible_recent (W : list APIRequest) (limit : Z)
    (selected : list APIRequest) : Prop :=
  0 <= limit /\
  exists ordered,
    possible_order (fun a b => timestamp b <=? timestamp a) W ordered /\
    selected = firstn (Z.to_nat limit) ordered.

(** * Properties of the recorder *)

Ltac unfold_hook :=
  unfold log_response, log_request, mirror, emit, persist, try_except, bind, ret,
    time_time, request_start_time, logger_warning, logger_error,
    put_log_events, session_add, session_commit, session_rollback,
    get, modify in *.

Lemma mirror_never_raises cw request response latency w :
  fst (mirror cw request response latency w) = Ok tt.
Proof.
  unfold_hook. destruct cw as [c|]; simpl; [|reflexivity].
  destruct (sink_fault w); reflexivity.
Qed.

Lemma mirror_frame cw request response latency w :
  let w1 := snd (mirror cw request response latency w) in
  wall_clock w1 = wall_clock w /\ start_time w1 = start_time w /\
  store_fault w1 = store_fault w /\ session_new w1 = session_new w /\
  api_requests w1 = api_requests w /\
  api_requests_id_seq w1 = api_requests_id_seq w.
Proof.
  unfold_hook. destruct cw as [c|]; simpl; [|tauto].
  destruct (sink_fault w); simpl; tauto.
Qed.

Lemma guarded_persist_never_raises request response latency w :
  fst (try_except (persist request response latency)
         (fun e => logger_error e ;; session_rollback) w) = Ok tt.
Proof.
  unfold_hook. simpl.
  destruct (store_fault w); simpl; [reflexivity|].
  destruct (forallb _ _); reflexivity.
Qed.

(** Once [request.start_time] is set, [log_response] is the sink block
    followed by the store block, and its value is its argument. *)
Lemma log_response_steps cw request response w t0 :
  start_time w = Some t0 ->
  log_response cw request response w =
  (Ok response,
   snd (try_except (persist request response ((wall_clock w - t0) * 1000)%Q)
          (fun e => logger_error e ;; session_rollback)
          (after_mirror cw request response t0 w))).
Proof.
  intros Hs. unfold after_mirror.
  pose proof (mirror_never_raises cw request response
                ((wall_clock w - t0) * 1000)%Q w) as Hm.
  unfold log_response at 1. unfold bind at 1. unfold time_time, get.
  unfold bind at 1. unfold request_start_time. rewrite Hs.
  unfold bind at 1.
  destruct (mirror cw request response ((wall_clock w - t0) * 1000)%Q w)
    as [o w1] eqn:E.
  simpl in Hm. subst o. simpl.
  unfold bind at 1.
  pose proof (guarded_persist_never_raises request response
                ((wall_clock w - t0) * 1000)%Q w1) as Hp.
  destruct (try_except _ _ w1) as [o2 w2].
  simpl in Hp. subst o2. reflexivity.
Qed.

Lemma log_request_sets_start_time w :
  log_request w = (Ok tt, set_start_time (Some (wall_clock w)) w).
Proof. reflexivity. Qed.

Lemma serve_one_returns cw c w :
  fst (serve_one cw c w) = Ok (cy_response c).
Proof.
  unfold serve_one.
  unfold bind at 1. unfold modify at 1.
  unfold bind at 1. rewrite log_request_sets_start_time.
  unfold bind at 1. unfold modify at 1.
  erewrite log_response_steps by reflexivity. reflexivity.
Qed.

(** C1. Under every combination of sink and store faults, [log_response]
    returns the response it was given: the same object, hence the same
    status code and body.  The only requirement is the one Flask
    guarantees, that [log_request] ran first; a whole cycle therefore
    always yields the view's response. *)
Theorem log_response_returns_original cw request response w :
  (start_time w <> None ->
   fst (log_response cw request response w) = Ok response) /\
  (forall c : Cycle, fst (serve_one cw c w) = Ok (cy_response c)).
Proof.
  split.
  - intros Hs. destruct (start_time w) as [t0|] eqn:E; [|congruence].
    rewrite (log_response_steps _ _ _ _ t0 E). reflexivity.
  - intros c. apply serve_one_returns.
Qed.

Lemma log_response_returns_original_witness :
  start_time store_down <> None /\
  fst (log_response (Some sample_client) sample_request sample_response
         store_down) = Ok sample_response.
Proof.
  split.
  - simpl. discriminate.
  - apply (proj1 (log_response_returns_original (Some sample_client)
                    sample_request sample_response store_down)).
    simpl. discriminate.
Defined.

(** When the second [try] body raises: the store is unreachable, or a
    pending value does not fit its column. *)
Lemma persist_raises_cases request response latency w e :
  fst (persist request response latency w) = Raise e <->
  store_fault w = Some e \/
  (store_fault w = None /\
   forallb fits_schema
     (session_new w ++ [new_APIRequest request response latency]) = false /\
   e = DataError "value too long for type character varying").
Proof.
  unfold_hook. simpl.
  destruct (store_fault w) as [e'|]; simpl.
  - split.
    + intros [= ->]. now left.
    + intros [[= ->]|[H _]]; [reflexivity|discriminate].
  - destruct (forallb _ _); simpl; split.
    + discriminate.
    + intros [H|(_ & H & _)]; discriminate.
    + intros [= <-]. right. auto.
    + intros [H|(_ & _ & ->)]; [discriminate|reflexivity].
Qed.

(** C2. If the store block of [log_response] raises [e] -- whatever [e]
    is -- the hook still returns normally with the response, exactly one
    ERROR line carrying [e] is logged, the session is rolled back to no
    pending objects, and the table and its id sequence are as before. *)
Theorem persistence_failure_swallowed cw request response w t0 e :
  start_time w = Some t0 ->
  fst (persist request response ((wall_clock w - t0) * 1000)%Q
         (after_mirror cw request response t0 w)) = Raise e ->
  fst (log_response cw request response w) = Ok response /\
  logger (snd (log_response cw request response w)) =
    logger (after_mirror cw request response t0 w) ++ [(ERROR, e)] /\
  session_new (snd (log_response cw request response w)) = [] /\
  api_requests (snd (log_response cw request response w)) = api_requests w /\
  api_requests_id_seq (snd (log_response cw request response w)) =
    api_requests_id_seq w.
Proof.
  intros Hs Hraise.
  rewrite (log_response_steps _ _ _ _ t0 Hs). simpl fst. simpl snd.
  split; [reflexivity|].
  destruct (mirror_frame cw request response ((wall_clock w - t0) * 1000)%Q w)
    as (_ & _ & _ & _ & Hrows & Hseq).
  fold (after_mirror cw request response t0 w) in Hrows, Hseq.
  revert Hraise Hrows Hseq.
  generalize (after_mirror cw request response t0 w) as w1. intros w1.
  unfold_hook. simpl.
  destruct (store_fault w1) as [e'|]; simpl.
  - intros [= ->] Hrows Hseq. auto.
  - destruct (forallb _ _); simpl; [discriminate|].
    intros [= <-] Hrows Hseq. auto.
Qed.

Lemma persistence_failure_swallowed_witness :
  start_time store_down = Some 10%Q /\
  fst (persist sample_request sample_response
         ((wall_clock store_down - 10) * 1000)%Q
         (after_mirror (Some sample_client) sample_request sample_response
            10%Q store_down))
    = Raise (OperationalError "connection refused") /\
  fst (log_response (Some sample_client) sample_request sample_response
         store_down) = Ok sample_response /\
  logger (snd (log_response (Some sample_client) sample_request
                 sample_response store_down))
    = [(ERROR, OperationalError "connection refused")] /\
  api_requests (snd (log_response (Some sample_client) sample_request
                       sample_response store_down)) = [].
Proof.
  assert (H0 : start_time store_down = Some 10%Q) by reflexivity.
  assert (H : fst (persist sample_request sample_response
                     ((wall_clock store_down - 10) * 1000)%Q
                     (after_mirror (Some sample_client) sample_request
                        sample_response 10%Q store_down))
              = Raise (OperationalError "connection refused")) by reflexivity.
  destruct (persistence_failure_swallowed (Some sample_client) sample_request
              sample_response store_down 10%Q
              (OperationalError "connection refused") H0 H)
    as (H1 & H2 & _ & H4 & _).
  repeat split; assumption.
Defined.

(** The sink block touches the logger and the stream only as follows. *)
Lemma mirror_cases cw request response latency w :
  let w1 := snd (mirror cw request response latency w) in
  match cw, sink_fault w with
  | Some _, Some e =>
      logger w1 = logger w ++ [(WARNING, e)] /\ sink_events w1 = sink_events w
  | Some _, None =>
      logger w1 = logger w /\
      exists ev, sink_events w1 = sink_events w ++ [ev]
  | None, _ => w1 = w
  end.
Proof.
  unfold_hook. destruct cw as [c|]; simpl; [|destruct (sink_fault w); reflexivity].
  destruct (sink_fault w); simpl; eauto.
Qed.

(** What the store block does to the logger, the stream and the table. *)
Lemma guarded_persist_effect request response latency w :
  let w' := snd (try_except (persist request response latency)
                   (fun e => logger_error e ;; session_rollback) w) in
  sink_events w' = sink_events w /\
  session_new w' = [] /\
  ((exists e, logger w' = logger w ++ [(ERROR, e)] /\
              api_requests w' = api_requests w /\
              api_requests_id_seq w' = api_requests_id_seq w /\
              fst (persist request response latency w) = Raise e) \/
   (logger w' = logger w /\
    store_fault w = None /\
    forallb fits_schema
      (session_new w ++ [new_APIRequest request response latency]) = true /\
    api_requests w' =
      api_requests w ++
      flush (utcnow_of (wall_clock w)) (api_requests_id_seq w)
        (session_new w ++ [new_APIRequest request response latency]) /\
    api_requests_id_seq w' =
      api_requests_id_seq w +
      Z.of_nat (List.length
                  (session_new w ++ [new_APIRequest request response latency])))).
Proof.
  unfold_hook. simpl.
  destruct (store_fault w) as [e|] eqn:F; simpl.
  - split; [reflexivity|]. split; [reflexivity|]. left. exists e. auto.
  - destruct (forallb _ _) eqn:V; simpl.
    + split; [reflexivity|]. split; [reflexivity|]. right. auto.
    + split; [reflexivity|]. split; [reflexivity|]. left. eauto.
Qed.

(** The table after the store block depends on the clock, the session and
    the store only. *)
Lemma guarded_persist_table request response latency w1 w2 :
  wall_clock w1 = wall_clock w2 ->
  store_fault w1 = store_fault w2 ->
  session_new w1 = session_new w2 ->
  api_requests w1 = api_requests w2 ->
  api_requests_id_seq w1 = api_requests_id_seq w2 ->
  api_requests (snd (try_except (persist request response latency)
                       (fun e => logger_error e ;; session_rollback) w1)) =
  api_requests (snd (try_except (persist request response latency)
                       (fun e => logger_error e ;; session_rollback) w2)).
Proof.
  intros Hc Hf Hs Hr Hq. unfold_hook.
  destruct w1, w2. simpl in *. subst.
  destruct store_fault1; simpl; [reflexivity|].
  destruct (forallb _ _); reflexivity.
Qed.

(** C3, as the code has it.  A failing [put_log_events] is logged as one
    WARNING and swallowed; with no client configured nothing is emitted
    and no warning is logged.  Either way the response is returned, the
    table ends up exactly as it does with a reachable sink, and the row
    is appended whenever the store accepts it. *)
Theorem sink_failure_swallowed cw request response w t0 :
  start_time w = Some t0 ->
  fst (log_response cw request response w) = Ok response /\
  (forall cw',
     api_requests (snd (log_response cw request response w)) =
     api_requests (snd (log_response cw' request response (sink_up w)))) /\
  (forall c e, cw = Some c -> sink_fault w = Some e ->
     sink_events (snd (log_response cw request response w)) = sink_events w /\
     exists rest,
       logger (snd (log_response cw request response w)) =
         logger w ++ (WARNING, e) :: rest /\
       forall x, In x rest -> fst x = ERROR) /\
  (cw = None ->
     sink_events (snd (log_response cw request response w)) = sink_events w /\
     forall e, In (WARNING, e) (logger (snd (log_response cw request response w))) ->
               In (WARNING, e) (logger w)) /\
  (store_fault w = None ->
   forallb fits_schema
     (session_new w ++
      [new_APIRequest request response ((wall_clock w - t0) * 1000)%Q]) = true ->
   api_requests (snd (log_response cw request response w)) =
     api_requests w ++
     flush (utcnow_of (wall_clock w)) (api_requests_id_seq w)
       (session_new w ++
        [new_APIRequest request response ((wall_clock w - t0) * 1000)%Q])).
Proof.
  intros Hs.
  rewrite (log_response_steps _ _ _ _ t0 Hs). simpl fst. simpl snd.
  unfold after_mirror.
  set (lat := ((wall_clock w - t0) * 1000)%Q).
  pose proof (mirror_frame cw request response lat w) as Hfr.
  pose proof (mirror_cases cw request response lat w) as Hca.
  cbv zeta in Hfr, Hca.
  destruct Hfr as (Hclk & _ & Hfault & Hsess & Hrows & Hseq).
  pose proof (guarded_persist_effect request response lat
                (snd (mirror cw request response lat w))) as Hp.
  cbv zeta in Hp. destruct Hp as (Hev & _ & Hp).
  split; [reflexivity|]. split; [|split; [|split]].
  - intros cw'.
    assert (Hs' : start_time (sink_up w) = Some t0) by exact Hs.
    rewrite (log_response_steps _ _ _ _ t0 Hs'). simpl snd.
    unfold after_mirror.
    change (wall_clock (sink_up w)) with (wall_clock w). fold lat.
    destruct (mirror_frame cw' request response lat (sink_up w))
      as (Hclk' & _ & Hfault' & Hsess' & Hrows' & Hseq').
    apply guarded_persist_table.
    + rewrite Hclk, Hclk'. reflexivity.
    + rewrite Hfault, Hfault'. reflexivity.
    + rewrite Hsess, Hsess'. reflexivity.
    + rewrite Hrows, Hrows'. reflexivity.
    + rewrite Hseq, Hseq'. reflexivity.
  - intros c e -> Hf. rewrite Hf in Hca. destruct Hca as (Hlog & Hevs).
    split; [now rewrite Hev|].
    destruct Hp as [(e' & Hl & _)|(Hl & _)]; rewrite Hl, Hlog.
    + exists [(ERROR, e')]. split.
      * rewrite <- app_assoc. reflexivity.
      * intros x [<-|[]]. reflexivity.
    + exists []. split; [reflexivity|]. intros x [].
  - intros ->. clear Hca.
    change (snd (mirror None request response lat w)) with w in *.
    split; [exact Hev|].
    intros e. destruct Hp as [(e' & Hl & _)|(Hl & _)]; rewrite Hl; [|tauto].
    rewrite in_app_iff. intros [H|[H|[]]]; [exact H|discriminate].
  - intros Hf Hfit.
    destruct Hp as [(e' & _ & _ & _ & Hr)|(_ & _ & _ & Hr & _)].
    + apply persist_raises_cases in Hr. rewrite Hfault, Hsess in Hr.
      destruct Hr as [Hr|(_ & Hr & _)]; congruence.
    + rewrite Hr, Hrows, Hclk, Hseq, Hsess. reflexivity.
Qed.

Lemma sink_failure_swallowed_witness :
  start_time sink_down = Some 10%Q /\
  fst (log_response (Some sample_client) sample_request sample_response
         sink_down) = Ok sample_response /\
  logger (snd (log_response (Some sample_client) sample_request
                 sample_response sink_down))
    = [(WARNING, ClientError "ThrottlingException")] /\
  List.length (api_requests (snd (log_response (Some sample_client)
                                    sample_request sample_response sink_down)))
    = 1%nat.
Proof.
  assert (H0 : start_time sink_down = Some 10%Q) by reflexivity.
  destruct (sink_failure_swallowed (Some sample_client) sample_request
              sample_response sink_down 10%Q H0) as (H1 & _ & _ & _ & H5).
  split; [exact H0|]. split; [exact H1|]. split; [reflexivity|].
  rewrite H5; reflexivity.
Defined.

(** C3 as worded also asks for a warning when no sink is configured.
    With [cloudwatch_logs = None] the guard [if cloudwatch_logs:] skips
    the block, and the logger stays empty. *)
Lemma disabled_sink_logs_no_warning :
  ~ (forall cw request response w t0,
       start_time w = Some t0 ->
       (cw = None \/ exists e, sink_fault w = Some e) ->
       (exists e, In (WARNING, e)
                    (logger (snd (log_response cw request response w)))) /\
       fst (log_response cw request response w) = Ok response /\
       api_requests (snd (log_response cw request response w)) =
       api_requests (snd (log_response cw request response (sink_up w)))).
Proof.
  intros H.
  destruct (H None sample_request sample_response (midway None None) 10%Q
              eq_refl (or_introl eq_refl)) as ((e & Hin) & _).
  simpl in Hin. exact Hin.
Qed.

(** ** Sequences of requests *)

(** The world in which the after-request hook of the cycle [c] starts. *)
Lemma serve_one_world cw c w :
  snd (serve_one cw c w) =
  snd (try_except
         (persist (cy_request c) (cy_response c)
            ((cy_departure c - cy_arrival c) * 1000)%Q)
         (fun e => logger_error e ;; session_rollback)
         (snd (mirror cw (cy_request c) (cy_response c)
                 ((cy_departure c - cy_arrival c) * 1000)%Q
                 (set_outside (cy_departure c) (cy_sink_fault c)
                    (cy_store_fault c)
                    (set_start_time (Some (cy_arrival c)) w))))).
Proof.
  unfold serve_one.
  unfold bind at 1. unfold modify at 1.
  unfold bind at 1. rewrite log_request_sets_start_time.
  unfold bind at 1. unfold modify at 1.
  erewrite log_response_steps by reflexivity. reflexivity.
Qed.

Lemma serve_one_effect cw c w :
  session_new w = [] ->
  session_new (snd (serve_one cw c w)) = [] /\
  api_requests (snd (serve_one cw c w)) =
    api_requests w ++ appended (api_requests_id_seq w) [c] /\
  api_requests_id_seq (snd (serve_one cw c w)) =
    api_requests_id_seq w
    + Z.of_nat (List.length (appended (api_requests_id_seq w) [c])).
Proof.
  intros Hs. rewrite serve_one_world.
  set (lat := ((cy_departure c - cy_arrival c) * 1000)%Q).
  set (wm := set_outside (cy_departure c) (cy_sink_fault c) (cy_store_fault c)
               (set_start_time (Some (cy_arrival c)) w)).
  destruct (mirror_frame cw (cy_request c) (cy_response c) lat wm)
    as (Hclk & _ & Hfault & Hsess & Hrows & Hseq).
  destruct (guarded_persist_effect (cy_request c) (cy_response c) lat
              (snd (mirror cw (cy_request c) (cy_response c) lat wm)))
    as (_ & Hnew & Hp).
  split; [exact Hnew|].
  rewrite Hfault, Hsess, Hrows, Hseq, Hclk in Hp.
  change (session_new wm) with (session_new w) in Hp.
  change (api_requests wm) with (api_requests w) in Hp.
  change (api_requests_id_seq wm) with (api_requests_id_seq w) in Hp.
  change (store_fault wm) with (cy_store_fault c) in Hp.
  change (wall_clock wm) with (cy_departure c) in Hp.
  rewrite Hs in Hp. simpl app in Hp.
  unfold appended, persists, cycle_row. fold lat.
  destruct Hp as [(e & _ & Hr & Hq & Hraise)|(_ & Hf & Hfit & Hr & Hq)].
  - apply persist_raises_cases in Hraise.
    rewrite Hfault, Hsess in Hraise.
    change (session_new wm) with (session_new w) in Hraise.
    change (store_fault wm) with (cy_store_fault c) in Hraise.
    rewrite Hs in Hraise. simpl in Hraise.
    rewrite andb_true_r in Hraise.
    destruct Hraise as [Hf|(Hf & Hfit & _)]; rewrite Hf; [|rewrite Hfit];
      rewrite Hr, Hq, app_nil_r; simpl; split; auto with zarith.
  - simpl in Hfit. rewrite andb_true_r in Hfit. rewrite Hf, Hfit.
    rewrite Hr, Hq. simpl. auto.
Qed.

Lemma serve_cons cw c cs w :
  serve cw (c :: cs) w =
  (match fst (serve cw cs (snd (serve_one cw c w))) with
   | Ok rs => Ok (cy_response c :: rs)
   | Raise e => Raise e
   end,
   snd (serve cw cs (snd (serve_one cw c w)))).
Proof.
  simpl. unfold bind at 1.
  pose proof (serve_one_returns cw c w) as H.
  destruct (serve_one cw c w) as [o w1]. simpl in H. subst o. simpl.
  unfold bind at 1. destruct (serve cw cs w1) as [[rs|e] w2]; reflexivity.
Qed.

Lemma serve_returns cw cs : forall w,
  fst (serve cw cs w) = Ok (map cy_response cs).
Proof.
  induction cs as [|c cs IH]; intros w; [reflexivity|].
  rewrite serve_cons. simpl. rewrite IH. reflexivity.
Qed.

Lemma appended_cons next c cs :
  appended next (c :: cs) =
  appended next [c] ++ appended (next + Z.of_nat (List.length (appended next [c]))) cs.
Proof.
  simpl. destruct (persists c); simpl.
  - reflexivity.
  - now rewrite Z.add_0_r.
Qed.

Lemma serve_effect cw cs : forall w,
  session_new w = [] ->
  session_new (snd (serve cw cs w)) = [] /\
  api_requests (snd (serve cw cs w)) =
    api_requests w ++ appended (api_requests_id_seq w) cs /\
  api_requests_id_seq (snd (serve cw cs w)) =
    api_requests_id_seq w
    + Z.of_nat (List.length (appended (api_requests_id_seq w) cs)).
Proof.
  induction cs as [|c cs IH]; intros w Hs.
  - simpl. rewrite app_nil_r, Z.add_0_r. auto.
  - rewrite serve_cons. simpl snd.
    destruct (serve_one_effect cw c w Hs) as (Hs1 & Hr1 & Hq1).
    destruct (IH _ Hs1) as (Hs2 & Hr2 & Hq2).
    split; [exact Hs2|].
    rewrite Hr2, Hq2, Hr1, Hq1, (appended_cons _ c cs).
    rewrite <- app_assoc, length_app, Nat2Z.inj_add.
    split; [reflexivity|lia].
Qed.

Lemma appended_length next cs :
  (List.length (appended next cs) <= List.length cs)%nat.
Proof.
  revert next. induction cs as [|c cs IH]; intros next; simpl; [lia|].
  destruct (persists c); simpl; [specialize (IH (next + 1))|specialize (IH next)]; lia.
Qed.

Lemma appended_ids next cs :
  Forall (fun r => next <= id r < next + Z.of_nat (List.length (appended next cs)))
    (appended next cs) /\
  NoDup (map id (appended next cs)).
Proof.
  revert next. induction cs as [|c cs IH]; intros next; simpl.
  - split; constructor.
  - destruct (persists c); [|apply IH].
    destruct (IH (next + 1)) as (Hb & Hn). split.
    + constructor; [simpl; lia|].
      eapply Forall_impl; [|exact Hb]. simpl. intros r Hr. lia.
    + simpl. constructor; [|exact Hn].
      intros Hin. apply in_map_iff in Hin. destruct Hin as (r & Hid & Hin).
      rewrite Forall_forall in Hb. specialize (Hb r Hin). lia.
Qed.

Lemma appended_all next cs :
  forallb persists cs = true ->
  List.length (appended next cs) = List.length cs /\
  Forall2 records cs (appended next cs).
Proof.
  revert next. induction cs as [|c cs IH]; intros next H; simpl in *.
  - split; [reflexivity|constructor].
  - apply andb_true_iff in H. destruct H as (Hc & Hcs). rewrite Hc.
    destruct (IH (next + 1) Hcs) as (Hl & Hf). split.
    + simpl. now rewrite Hl.
    + constructor; [|exact Hf]. unfold records. simpl. auto.
Qed.

Lemma store_wf_serve cw cs w :
  session_new w = [] -> store_wf w -> store_wf (snd (serve cw cs w)).
Proof.
  intros Hs (Hnd & Hlt).
  destruct (serve_effect cw cs w Hs) as (_ & Hr & Hq).
  destruct (appended_ids (api_requests_id_seq w) cs) as (Hb & Hn).
  rewrite Forall_forall in Hb, Hlt.
  unfold store_wf. rewrite Hr, Hq. split.
  - rewrite map_app. apply NoDup_app; [exact Hnd|exact Hn|].
    intros i Hi Hi'. apply in_map_iff in Hi, Hi'.
    destruct Hi as (r & <- & Hi). destruct Hi' as (r' & Heq & Hi').
    specialize (Hlt r Hi). specialize (Hb r' Hi'). lia.
  - apply Forall_forall. intros r Hin. apply in_app_iff in Hin.
    destruct Hin as [Hin|Hin]; [specialize (Hlt r Hin)|specialize (Hb r Hin)]; lia.
Qed.

(** C6. Serving [N] cycles only ever appends to the table: the rows that
    were there stay in place, untouched, at most [N] rows follow them, and
    all ids remain distinct.  When persistence succeeds for every cycle,
    exactly [N] rows are appended, the i-th recording the i-th cycle. *)
Theorem one_record_per_request cw cs w :
  session_new w = [] ->
  store_wf w ->
  exists new,
    api_requests (snd (serve cw cs w)) = api_requests w ++ new /\
    (List.length new <= List.length cs)%nat /\
    NoDup (map id (api_requests (snd (serve cw cs w)))) /\
    (forallb persists cs = true ->
     List.length new = List.length cs /\
     List.length (api_requests (snd (serve cw cs w))) =
       (List.length (api_requests w) + List.length cs)%nat /\
     Forall2 records cs new).
Proof.
  intros Hs Hwf.
  destruct (serve_effect cw cs w Hs) as (_ & Hr & _).
  exists (appended (api_requests_id_seq w) cs).
  split; [exact Hr|]. split; [apply appended_length|].
  split; [apply (store_wf_serve cw cs w Hs Hwf)|].
  intros Hall.
  destruct (appended_all (api_requests_id_seq w) cs Hall) as (Hl & Hf).
  split; [exact Hl|]. split; [|exact Hf].
  rewrite Hr, length_app, Hl. reflexivity.
Qed.

Lemma one_record_per_request_witness :
  session_new (boot 10 None None) = [] /\
  store_wf (boot 10 None None) /\
  forallb persists
    [sample_cycle None None;
     sample_cycle (Some (ClientError "ThrottlingException")) None;
     sample_cycle None None] = true /\
  List.length
    (api_requests
       (snd (serve (Some sample_client)
               [sample_cycle None None;
                sample_cycle (Some (ClientError "ThrottlingException")) None;
                sample_cycle None None]
               (boot 10 None None)))) = 3%nat.
Proof.
  assert (H0 : session_new (boot 10 None None) = []) by reflexivity.
  assert (H1 : store_wf (boot 10 None None)).
  { split; simpl; constructor. }
  assert (H2 : forallb persists
                 [sample_cycle None None;
                  sample_cycle (Some (ClientError "ThrottlingException")) None;
                  sample_cycle None None] = true) by reflexivity.
  destruct (one_record_per_request (Some sample_client)
              [sample_cycle None None;
               sample_cycle (Some (ClientError "ThrottlingException")) None;
               sample_cycle None None]
              (boot 10 None None) H0 H1) as (new & _ & _ & _ & H).
  destruct (H H2) as (_ & Hlen & _).
  split; [exact H0|]. split; [exact H1|]. split; [exact H2|exact Hlen].
Defined.

(** * Properties of the SQL building blocks *)

Section OrderByFacts.
Context {A : Type}.
Variable geb : A -> A -> bool.

Lemma insert_desc_perm x l : Permutation (insert_desc geb x l) (x :: l).
Proof.
  induction l as [|y l IH]; simpl; [reflexivity|].
  destruct (geb x y); [reflexivity|].
  rewrite IH. apply perm_swap.
Qed.

Lemma order_by_desc_perm l : Permutation (order_by_desc geb l) l.
Proof.
  induction l as [|x l IH]; simpl; [reflexivity|].
  rewrite insert_desc_perm. now constructor.
Qed.

Lemma order_by_desc_In l x : In x (order_by_desc geb l) <-> In x l.
Proof.
  split; apply Permutation_in;
    [apply order_by_desc_perm|symmetry; apply order_by_desc_perm].
Qed.


Hypothesis geb_total : forall a b, geb a b = true \/ geb b a = true.
Hypothesis geb_trans :
  forall a b c, geb a b = true -> geb b c = true -> geb a c = true.

Lemma insert_desc_sorted x l :
  StronglySorted (fun a b => geb a b = true) l ->
  StronglySorted (fun a b => geb a b = true) (insert_desc geb x l).
Proof.
  induction 1 as [|y l Hs IH Hy]; simpl.
  - constructor; constructor.
  - destruct (geb x y) eqn:E.
    + constructor; [constructor; assumption|].
      constructor; [exact E|].
      rewrite Forall_forall in *. intros z Hz. eauto.
    + constructor; [exact IH|].
      rewrite Forall_forall in *. intros z Hz.
      apply (Permutation_in _ (insert_desc_perm x l)) in Hz.
      destruct Hz as [<-|Hz]; [|auto].
      destruct (geb_total x y) as [H|H]; [congruence|exact H].
Qed.

Lemma order_by_desc_sorted l :
  StronglySorted (fun a b => geb a b = true) (order_by_desc geb l).
Proof.
  induction l as [|x l IH]; simpl; [constructor|].
  now apply insert_desc_sorted.
Qed.
End OrderByFacts.

Lemma key_eqb_eq a b : key_eqb a b = true <-> a = b.
Proof.
  unfold key_eqb. destruct (key_eq_dec a b); split; congruence.
Qed.

Lemma key_eqb_refl a : key_eqb a a = true.
Proof. now apply key_eqb_eq. Qed.

Lemma group_keys_In rows k :
  In k (group_keys rows) <-> exists r, In r rows /\ key_of r = k.
Proof.
  unfold group_keys. rewrite nodup_In, in_map_iff.
  split; intros (r & H1 & H2); exists r; auto.
Qed.

Lemma group_keys_NoDup rows : NoDup (group_keys rows).
Proof. apply NoDup_nodup. Qed.

Lemma group_In rows k r :
  In r (group k rows) <-> In r rows /\ key_of r = k.
Proof.
  unfold group. rewrite filter_In, key_eqb_eq. reflexivity.
Qed.

Lemma group_nonempty rows k :
  In k (group_keys rows) -> 0 < sql_count (group k rows).
Proof.
  intros H. apply group_keys_In in H. destruct H as (r & Hr & Hk).
  assert (Hin : In r (group k rows)) by (apply group_In; auto).
  unfold sql_count. destruct (group k rows); [destruct Hin|simpl; lia].
Qed.

Lemma group_empty rows k :
  ~ In k (group_keys rows) -> group k rows = [].
Proof.
  intros H. destruct (group k rows) as [|r l] eqn:E; [reflexivity|].
  exfalso. apply H. apply group_keys_In. exists r.
  apply group_In. rewrite E. now left.
Qed.

Lemma filter_comm {A} (p q : A -> bool) l :
  filter p (filter q l) = filter q (filter p l).
Proof.
  induction l as [|x l IH]; simpl; [reflexivity|].
  destruct (p x) eqn:P, (q x) eqn:Q; simpl; rewrite ?P, ?Q, IH; reflexivity.
Qed.

Lemma filter_andb {A} (p q : A -> bool) l :
  filter (fun x => p x && q x) l = filter q (filter p l).
Proof.
  induction l as [|x l IH]; simpl; [reflexivity|].
  destruct (p x) eqn:P; simpl; [|exact IH].
  destruct (q x); rewrite IH; reflexivity.
Qed.

(** Selecting one key from a duplicate-free list of keys. *)
Lemma filter_key_NoDup k (ks : list pair_key) :
  NoDup ks ->
  (In k ks -> filter (fun k' => key_eqb k k') ks = [k]) /\
  (~ In k ks -> filter (fun k' => key_eqb k k') ks = []).
Proof.
  intros Hnd. induction Hnd as [|k' ks Hn Hnd IH]; [split; [intros []|reflexivity]|].
  destruct IH as (IH1 & IH2). simpl.
  destruct (key_eqb k k') eqn:E.
  - apply key_eqb_eq in E. subst k'.
    split; [|intros C; exfalso; apply C; now left].
    intros _. now rewrite (IH2 Hn).
  - assert (Hne : k <> k').
    { intros C. apply key_eqb_eq in C. congruence. }
    split.
    + intros [C|Hin]; [congruence|auto].
    + intros Hnot. apply IH2. intros Hin. apply Hnot. now right.
Qed.


(** * Properties of the analytics views *)

(** ** Error rates *)

Lemma sql_div_nonzero a (n : Z) :
  0 < n -> sql_div a (inject_Z n) = Ok (a / inject_Z n)%Q.
Proof.
  intros H. unfold sql_div.
  destruct (Qeq_bool (inject_Z n) 0) eqn:E; [|reflexivity].
  apply Qeq_bool_iff in E. unfold Qeq, inject_Z in E. simpl in E. lia.
Qed.

Lemma group_filter_comm p k rows :
  group k (filter p rows) = filter p (group k rows).
Proof. unfold group. apply filter_comm. Qed.

Lemma error_rate_row_joined W k (errors : option Z) :
  In k (group_keys W) ->
  coalesce errors 0 = sql_count (filter is_error (group k W)) ->
  error_rate_row (k, sql_count (group k W), errors) = Ok (error_rate_of W k).
Proof.
  intros Hk Hc. unfold error_rate_row. rewrite Hc.
  rewrite sql_div_nonzero by now apply group_nonempty.
  reflexivity.
Qed.

(** The join row of one pair: the error count of the pair, or NULL when
    the error subquery has no group for it -- and then the count is zero. *)
Lemma outerjoin_row_counts E k (n : Z) :
  exists errors,
    outerjoin_row (counts_by_pair E) (k, n) = [(k, n, errors)] /\
    coalesce errors 0 = sql_count (group k E).
Proof.
  unfold outerjoin_row, counts_by_pair. cbn [fst snd].
  rewrite filter_map_swap. cbn [fst].
  destruct (filter_key_NoDup k (group_keys E) (group_keys_NoDup E)) as (Hin & Hout).
  destruct (in_dec key_eq_dec k (group_keys E)) as [Hk|Hk].
  - rewrite (Hin Hk). exists (Some (sql_count (group k E))). split; reflexivity.
  - rewrite (Hout Hk). exists None. split; [reflexivity|].
    rewrite (group_empty _ _ Hk). reflexivity.
Qed.

(** The outer join yields one row per in-window pair, with the error count
    zero-filled where the error subquery has no row for the pair. *)
Lemma joined_rows W :
  traverse error_rate_row
    (outerjoin (counts_by_pair W) (counts_by_pair (filter is_error W))) =
  Ok (map (error_rate_of W) (group_keys W)).
Proof.
  unfold outerjoin.
  set (E := filter is_error W).
  change (counts_by_pair W)
    with (map (fun k => (k, sql_count (group k W))) (group_keys W)).
  assert (Hsub : forall k, In k (group_keys W) -> In k (group_keys W)) by auto.
  revert Hsub. generalize (group_keys W) at 1 3 4 as ks.
  induction ks as [|k ks IH]; intros Hsub; [reflexivity|].
  cbn [map flat_map].
  destruct (outerjoin_row_counts E k (sql_count (group k W)))
    as (errors & -> & Hc).
  cbn [app traverse].
  rewrite error_rate_row_joined;
    [|apply Hsub; now left
     |rewrite Hc; unfold E; now rewrite group_filter_comm].
  cbn [bind_outcome]. rewrite IH; [reflexivity|].
  intros k' Hk'. apply Hsub. now right.
Qed.

Lemma scale_2 : scale 2 = 100%positive.
Proof. reflexivity. Qed.




(** The view, in closed form. *)
Lemma get_error_rates_eq now rows hours :
  get_error_rates now rows hours =
  Ok (hours,
      order_by_desc
        (fun a b => Qle_bool (er_error_rate_percent b) (er_error_rate_percent a))
        (map (error_rate_of (filter (since (now - timedelta_hours hours)) rows))
           (group_keys (filter (since (now - timedelta_hours hours)) rows)))).
Proof.
  unfold get_error_rates. cbv zeta.
  rewrite filter_andb, joined_rows. reflexivity.
Qed.


(** ** Summary *)

Lemma py_or_0 x : py_or x 0 = x.
Proof. unfold py_or. destruct (Z.eqb_spec x 0); congruence. Qed.

Lemma py_or_1 x : 0 <= x -> py_or x 1 = Z.max x 1.
Proof. intros H. unfold py_or. destruct (Z.eqb_spec x 0); lia. Qed.

Lemma sql_count_nonneg {A} (l : list A) : 0 <= sql_count l.
Proof. unfold sql_count. lia. Qed.

Lemma py_truediv_nonzero a (d : Z) :
  d <> 0 -> py_truediv a (inject_Z d) = Ok (a / inject_Z d)%Q.
Proof.
  intros H. unfold py_truediv.
  destruct (Qeq_bool (inject_Z d) 0) eqn:E; [|reflexivity].
  apply Qeq_bool_iff in E. unfold Qeq, inject_Z in E. simpl in E. lia.
Qed.

(** The view, in closed form: the guarded division always goes through. *)
Lemma get_summary_eq now rows hours :
  get_summary now rows hours =
  Ok (hours,
      let W := filter (since (now - timedelta_hours hours)) rows in
      {| total_requests := sql_count W;
         error_count := sql_count (filter is_error W);
         error_rate_percent :=
           py_round (inject_Z (sql_count (filter is_error W)) * 100
                     / inject_Z (Z.max (sql_count W) 1)) 2;
         avg_latency_ms := py_round (py_or_opt (sql_avg (map latency_ms W)) 0) 2;
         unique_endpoints := sql_count (nodup string_dec (map endpoint W)) |}).
Proof.
  unfold get_summary. cbv zeta.
  rewrite filter_andb, !py_or_0.
  rewrite py_or_1 by apply sql_count_nonneg.
  rewrite py_truediv_nonzero by (pose proof (sql_count_nonneg
    (filter (since (now - timedelta_hours hours)) rows)); lia).
  reflexivity.
Qed.






Lemma sql_count_filter_mono {A} (p q : A -> bool) (l : list A) :
  (forall x, p x = true -> q x = true) ->
  sql_count (filter p l) <= sql_count (filter q l).
Proof.
  intros Hpq. unfold sql_count. apply inj_le.
  induction l as [|x l IH]; simpl; [lia|].
  destruct (p x) eqn:P.
  - rewrite (Hpq x P). simpl. lia.
  - destruct (q x); simpl; lia.
Qed.

Lemma since_mono th1 th2 r :
  th2 <= th1 -> since th1 r = true -> since th2 r = true.
Proof. unfold since. rewrite !Z.leb_le. lia. Qed.

(** With the threshold taken on unbounded integers, widening the window
    can only add records to both counts of the summary. *)
Lemma get_summary_monotone now rows h1 h2 :
  0 < h1 ->
  h1 <= h2 ->
  exists s1 s2,
    get_summary now rows h1 = Ok (h1, s1) /\
    get_summary now rows h2 = Ok (h2, s2) /\
    total_requests s1 <= total_requests s2 /\
    error_count s1 <= error_count s2.
Proof.
  intros _ Hle. rewrite !get_summary_eq. cbv zeta.
  eexists. eexists. split; [reflexivity|]. split; [reflexivity|].
  cbn [total_requests error_count].
  assert (Hth : now - timedelta_hours h2 <= now - timedelta_hours h1)
    by (unfold timedelta_hours; lia).
  split.
  - apply sql_count_filter_mono. intros r. now apply since_mono.
  - rewrite <- !filter_andb. apply sql_count_filter_mono.
    intros r Hr. apply andb_true_iff in Hr. destruct Hr as (Hs & He).
    apply andb_true_iff. split; [|exact He].
    now apply (since_mono _ _ r Hth).
Qed.

(** ** The time window *)

Lemma since_spec now hours r :
  since (now - timedelta_hours hours) r = true <->
  now - hours * 3600000000 <= timestamp r.
Proof. unfold since, timedelta_hours. apply Z.leb_le. Qed.

Lemma window_singleton now hours r :
  timestamp r = now - timedelta_hours hours ->
  filter (since (now - timedelta_hours hours)) [r] = [r].
Proof.
  intros H. simpl. unfold since. rewrite H, Z.leb_refl. reflexivity.
Qed.

Lemma group_keys_singleton r : group_keys [r] = [key_of r].
Proof. reflexivity. Qed.

Lemma group_singleton r : group (key_of r) [r] = [r].
Proof. unfold group. simpl. now rewrite key_eqb_refl. Qed.

(** Every view reads the table through the same filter. *)
Lemma views_read_the_window now hours rows rows' :
  filter (since (now - timedelta_hours hours)) rows =
  filter (since (now - timedelta_hours hours)) rows' ->
  (forall limit, get_most_used_endpoints now rows limit hours =
                 get_most_used_endpoints now rows' limit hours) /\
  get_error_rates now rows hours = get_error_rates now rows' hours /\
  get_average_response_times now rows hours =
    get_average_response_times now rows' hours /\
  get_summary now rows hours = get_summary now rows' hours /\
  (forall limit, get_recent_requests now rows limit hours =
                 get_recent_requests now rows' limit hours).
Proof.
  intros H. repeat split.
  - intros limit. unfold get_most_used_endpoints. cbv zeta. now rewrite H.
  - rewrite !get_error_rates_eq. now rewrite H.
  - unfold get_average_response_times. cbv zeta. now rewrite H.
  - rewrite !get_summary_eq. cbv zeta. now rewrite H.
  - intros limit. unfold get_recent_requests, recent_rows. cbv zeta.
    now rewrite H.
Qed.

(** A table holding one record stamped exactly [now - hours]. *)
Lemma boundary_record_counted now hours r :
  timestamp r = now - timedelta_hours hours ->
  (exists s, get_summary now [r] hours = Ok (hours, s) /\ total_requests s = 1) /\
  get_most_used_endpoints now [r] 10 hours =
    Ok (hours, [ {| mu_endpoint := endpoint r; mu_method := method r;
                    mu_request_count := 1 |} ]) /\
  (exists row, get_error_rates now [r] hours = Ok (hours, [row]) /\
               er_endpoint row = endpoint r /\ er_method row = method r /\
               er_total_requests row = 1) /\
  (exists row, get_average_response_times now [r] hours = Ok (hours, [row]) /\
               rt_endpoint row = endpoint r /\ rt_method row = method r /\
               rt_request_count row = 1) /\
  get_recent_requests now [r] 100 hours =
    Ok {| count := 1; requests := [to_dict r] |}.
Proof.
  intros H. pose proof (window_singleton now hours r H) as HW.
  split; [|split; [|split; [|split]]].
  - rewrite get_summary_eq. cbv zeta. rewrite HW. eexists. split; reflexivity.
  - unfold get_most_used_endpoints. cbv zeta. rewrite HW.
    unfold counts_by_pair. rewrite group_keys_singleton. cbn [map].
    rewrite group_singleton. reflexivity.
  - rewrite get_error_rates_eq, HW, group_keys_singleton. cbn [map order_by_desc fold_right insert_desc].
    unfold error_rate_of. rewrite group_singleton.
    eexists. split; [reflexivity|]. repeat split.
  - unfold get_average_response_times. cbv zeta. rewrite HW.
    rewrite group_keys_singleton. cbn [map]. unfold latency_group.
    rewrite group_singleton. cbn.
    eexists. split; [reflexivity|]. repeat split.
  - unfold get_recent_requests, recent_rows. cbv zeta. rewrite HW. reflexivity.
Qed.

(** C7. Every view selects exactly the records with
    [timestamp >= now - hours]: its answer depends on the table only
    through that filter, and the comparison is not strict, so a record
    stamped exactly [now - hours] is counted by all five views.  Seen from
    [now], a record two hours old is in the 24 hour window and one
    twenty-five hours old is not; both are in the 48 hour window. *)
Theorem window_is_inclusive now hours :
  (forall r, since (now - timedelta_hours hours) r = true <->
             now - hours * 3600000000 <= timestamp r) /\
  (forall rows rows',
     filter (since (now - timedelta_hours hours)) rows =
     filter (since (now - timedelta_hours hours)) rows' ->
     (forall limit, get_most_used_endpoints now rows limit hours =
                    get_most_used_endpoints now rows' limit hours) /\
     get_error_rates now rows hours = get_error_rates now rows' hours /\
     get_average_response_times now rows hours =
       get_average_response_times now rows' hours /\
     get_summary now rows hours = get_summary now rows' hours /\
     (forall limit, get_recent_requests now rows limit hours =
                    get_recent_requests now rows' limit hours)) /\
  (forall r,
     timestamp r = now - timedelta_hours hours ->
     (exists s, get_summary now [r] hours = Ok (hours, s) /\
                total_requests s = 1) /\
     get_most_used_endpoints now [r] 10 hours =
       Ok (hours, [ {| mu_endpoint := endpoint r; mu_method := method r;
                       mu_request_count := 1 |} ]) /\
     (exists row, get_error_rates now [r] hours = Ok (hours, [row]) /\
                  er_endpoint row = endpoint r /\ er_method row = method r /\
                  er_total_requests row = 1) /\
     (exists row, get_average_response_times now [r] hours = Ok (hours, [row]) /\
                  rt_endpoint row = endpoint r /\ rt_method row = method r /\
                  rt_request_count row = 1) /\
     get_recent_requests now [r] 100 hours =
       Ok {| count := 1; requests := [to_dict r] |}) /\
  filter (since (100 * hour - timedelta_hours 24))
    [two_hours_old; twenty_five_hours_old] = [two_hours_old] /\
  filter (since (100 * hour - timedelta_hours 48))
    [two_hours_old; twenty_five_hours_old]
    = [two_hours_old; twenty_five_hours_old] /\
  get_recent_requests (100 * hour) [two_hours_old; twenty_five_hours_old] 100 24
    = Ok {| count := 1; requests := [to_dict two_hours_old] |} /\
  get_recent_requests (100 * hour) [two_hours_old; twenty_five_hours_old] 100 48
    = Ok {| count := 2;
            requests := [to_dict two_hours_old; to_dict twenty_five_hours_old] |}.
Proof.
  split; [intros r; apply since_spec|].
  split; [intros rows rows'; apply views_read_the_window|].
  split; [intros r; apply boundary_record_counted|].
  repeat split; vm_compute; reflexivity.
Qed.

Lemma window_is_inclusive_witness :
  timestamp (sample 9 "/health" "GET" 200 (100 * hour - 24 * hour))
    = 100 * hour - timedelta_hours 24 /\
  get_recent_requests (100 * hour)
    [sample 9 "/health" "GET" 200 (100 * hour - 24 * hour)] 100 24
    = Ok {| count := 1;
            requests :=
              [to_dict (sample 9 "/health" "GET" 200 (100 * hour - 24 * hour))] |}.
Proof.
  assert (H : timestamp (sample 9 "/health" "GET" 200 (100 * hour - 24 * hour))
              = 100 * hour - timedelta_hours 24) by reflexivity.
  split; [exact H|].
  destruct (window_is_inclusive (100 * hour) 24) as (_ & _ & Hb & _).
  destruct (Hb _ H) as (_ & _ & _ & _ & Hr). exact Hr.
Defined.

(** ** Recent requests *)






(** * Further properties of the recorder *)

(** What one cycle writes to the local log and to the stream. *)
Lemma serve_one_log_and_stream cw c w :
  session_new w = [] ->
  logger (snd (serve_one cw c w)) = logger w ++ cycle_log cw c /\
  sink_events (snd (serve_one cw c w)) = sink_events w ++ cycle_event cw c.
Proof.
  intros Hs. rewrite serve_one_world.
  unfold cycle_log, cycle_event, cycle_row. unfold_hook.
  destruct cw as [cl|]; destruct (cy_sink_fault c) as [es|]; simpl;
    destruct (cy_store_fault c) as [ed|]; simpl; rewrite ?Hs; simpl;
    rewrite ?andb_true_r;
    try destruct (fits_schema _); simpl;
    rewrite ?app_nil_r, <- ?app_assoc; auto.
Qed.

Lemma serve_log_and_stream cw cs : forall w,
  session_new w = [] ->
  logger (snd (serve cw cs w)) = logger w ++ List.concat (map (cycle_log cw) cs) /\
  sink_events (snd (serve cw cs w)) =
    sink_events w ++ List.concat (map (cycle_event cw) cs).
Proof.
  induction cs as [|c cs IH]; intros w Hs.
  - simpl. now rewrite !app_nil_r.
  - rewrite serve_cons. simpl snd.
    destruct (serve_one_effect cw c w Hs) as (Hs1 & _).
    destruct (serve_one_log_and_stream cw c w Hs) as (Hl1 & He1).
    destruct (IH _ Hs1) as (Hl2 & He2).
    rewrite Hl2, He2, Hl1, He1. simpl. now rewrite <- !app_assoc.
Qed.

Lemma count_level_app lv l1 l2 :
  count_level lv (l1 ++ l2) = (count_level lv l1 + count_level lv l2)%nat.
Proof. unfold count_level. now rewrite filter_app, length_app. Qed.

Lemma cycle_log_errors cw c :
  count_level ERROR (cycle_log cw c) = if persists c then 0%nat else 1%nat.
Proof.
  unfold cycle_log, persists. rewrite count_level_app.
  destruct cw as [cl|]; destruct (cy_sink_fault c); destruct (cy_store_fault c);
    try destruct (fits_schema (cycle_row c)); reflexivity.
Qed.

Lemma cycle_log_warnings cw c :
  count_level WARNING (cycle_log cw c) =
  match cw, cy_sink_fault c with
  | Some _, Some _ => 1%nat
  | _, _ => 0%nat
  end.
Proof.
  unfold cycle_log. rewrite count_level_app.
  destruct cw as [cl|]; destruct (cy_sink_fault c); destruct (cy_store_fault c);
    try destruct (fits_schema (cycle_row c)); reflexivity.
Qed.

Lemma appended_count next cs :
  List.length (appended next cs) = List.length (filter persists cs).
Proof.
  revert next. induction cs as [|c cs IH]; intros next; simpl; [reflexivity|].
  destruct (persists c); simpl; now rewrite IH.
Qed.

Lemma concat_cycle_log_errors cw cs :
  count_level ERROR (List.concat (map (cycle_log cw) cs)) =
  List.length (filter (fun c => negb (persists c)) cs).
Proof.
  induction cs as [|c cs IH]; simpl; [reflexivity|].
  rewrite count_level_app, cycle_log_errors, IH.
  destruct (persists c); reflexivity.
Qed.

Lemma filter_partition_length {A} (p : A -> bool) l :
  (List.length (filter p l) + List.length (filter (fun x => negb (p x)) l))%nat
  = List.length l.
Proof.
  induction l as [|x l IH]; simpl; [reflexivity|].
  destruct (p x); simpl; lia.
Qed.

(** X1. Each request is either recorded or reported: over any run of
    cycles started with a fresh session, the number of rows added to the
    table plus the number of ERROR lines added to the log is the number
    of requests, and the ERROR lines are as many as the cycles whose row
    the store did not take. *)
Theorem recorded_or_reported cw cs w :
  session_new w = [] ->
  (List.length (api_requests (snd (serve cw cs w)))
   + count_level ERROR (logger (snd (serve cw cs w))))%nat =
  (List.length (api_requests w) + count_level ERROR (logger w)
   + List.length cs)%nat /\
  count_level ERROR (logger (snd (serve cw cs w))) =
  (count_level ERROR (logger w)
   + List.length (filter (fun c => negb (persists c)) cs))%nat.
Proof.
  intros Hs.
  destruct (serve_effect cw cs w Hs) as (_ & Hr & _).
  destruct (serve_log_and_stream cw cs w Hs) as (Hl & _).
  rewrite Hr, Hl, length_app, count_level_app, concat_cycle_log_errors,
    appended_count.
  pose proof (filter_partition_length persists cs). lia.
Qed.

Lemma recorded_or_reported_witness :
  session_new (boot 10 None None) = [] /\
  (List.length
     (api_requests
        (snd (serve (Some sample_client)
                [sample_cycle None None;
                 sample_cycle None (Some (OperationalError "connection refused"))]
                (boot 10 None None))))
   + count_level ERROR
       (logger
          (snd (serve (Some sample_client)
                  [sample_cycle None None;
                   sample_cycle None (Some (OperationalError "connection refused"))]
                  (boot 10 None None)))))%nat = 2%nat.
Proof.
  split; [reflexivity|].
  apply (proj1 (recorded_or_reported (Some sample_client)
                  [sample_cycle None None;
                   sample_cycle None (Some (OperationalError "connection refused"))]
                  (boot 10 None None) eq_refl)).
Defined.

Lemma concat_cycle_log_warnings cl cs :
  count_level WARNING (List.concat (map (cycle_log (Some cl)) cs)) =
  List.length (filter (fun c => match cy_sink_fault c with
                                | Some _ => true
                                | None => false
                                end) cs).
Proof.
  induction cs as [|c cs IH]; simpl; [reflexivity|].
  rewrite count_level_app, cycle_log_warnings, IH.
  destruct (cy_sink_fault c); reflexivity.
Qed.

Lemma concat_cycle_event_length cl cs :
  List.length (List.concat (map (cycle_event (Some cl)) cs)) =
  List.length (filter (fun c => match cy_sink_fault c with
                                | Some _ => false
                                | None => true
                                end) cs).
Proof.
  induction cs as [|c cs IH]; simpl; [reflexivity|].
  rewrite length_app, IH. unfold cycle_event.
  destruct (cy_sink_fault c); reflexivity.
Qed.

Lemma concat_cycle_quiet cs :
  count_level WARNING (List.concat (map (cycle_log None) cs)) = 0%nat /\
  List.concat (map (cycle_event None) cs) = [].
Proof.
  induction cs as [|c cs IH]; simpl; [auto|].
  destruct IH as (IH1 & IH2).
  rewrite count_level_app, cycle_log_warnings, IH1, IH2. auto.
Qed.

(** X2. With a client configured, each request either reaches the stream
    as one event or leaves one WARNING line, never both and never neither;
    with no client configured the stream is untouched and no WARNING is
    written. *)
Theorem mirrored_or_warned cw cs w :
  session_new w = [] ->
  match cw with
  | Some _ =>
      List.length (sink_events (snd (serve cw cs w))) =
        (List.length (sink_events w)
         + List.length (filter (fun c => match cy_sink_fault c with
                                         | Some _ => false
                                         | None => true
                                         end) cs))%nat /\
      count_level WARNING (logger (snd (serve cw cs w))) =
        (count_level WARNING (logger w)
         + List.length (filter (fun c => match cy_sink_fault c with
                                         | Some _ => true
                                         | None => false
                                         end) cs))%nat /\
      (List.length (sink_events (snd (serve cw cs w)))
       + count_level WARNING (logger (snd (serve cw cs w))))%nat =
        (List.length (sink_events w) + count_level WARNING (logger w)
         + List.length cs)%nat
  | None =>
      sink_events (snd (serve cw cs w)) = sink_events w /\
      count_level WARNING (logger (snd (serve cw cs w))) =
        count_level WARNING (logger w)
  end.
Proof.
  intros Hs.
  destruct (serve_log_and_stream cw cs w Hs) as (Hl & He).
  rewrite Hl, He. destruct cw as [cl|].
  - rewrite length_app, count_level_app, concat_cycle_log_warnings,
      concat_cycle_event_length.
    pose proof (filter_partition_length
                  (fun c => match cy_sink_fault c with
                            | Some _ => false
                            | None => true
                            end) cs) as Hp.
    rewrite (filter_ext (fun c => negb match cy_sink_fault c with
                                       | Some _ => false
                                       | None => true
                                       end)
               (fun c => match cy_sink_fault c with
                         | Some _ => true
                         | None => false
                         end)) in Hp
      by (intros c; destruct (cy_sink_fault c); reflexivity).
    lia.
  - destruct (concat_cycle_quiet cs) as (H1 & H2).
    rewrite count_level_app, H1, H2, app_nil_r. split; [reflexivity|lia].
Qed.

Lemma mirrored_or_warned_witness :
  session_new (boot 10 None None) = [] /\
  List.length
    (sink_events
       (snd (serve (Some sample_client)
               [sample_cycle None None;
                sample_cycle (Some (ClientError "ThrottlingException")) None]
               (boot 10 None None)))) = 1%nat /\
  count_level WARNING
    (logger
       (snd (serve (Some sample_client)
               [sample_cycle None None;
                sample_cycle (Some (ClientError "ThrottlingException")) None]
               (boot 10 None None)))) = 1%nat.
Proof.
  split; [reflexivity|].
  destruct (mirrored_or_warned (Some sample_client)
              [sample_cycle None None;
               sample_cycle (Some (ClientError "ThrottlingException")) None]
              (boot 10 None None) eq_refl) as (H1 & H2 & _).
  split; [exact H1|exact H2].
Defined.

Lemma headers_get_missing hs key default :
  (forall k v, In (k, v) hs -> lower k <> lower key) ->
  headers_get hs key default = default.
Proof.
  induction hs as [|[k v] hs IH]; intros H; simpl; [reflexivity|].
  destruct (String.eqb_spec (lower k) (lower key)) as [E|_].
  - exfalso. apply (H k v); [now left|exact E].
  - apply IH. intros k' v' Hin. apply (H k' v'). now right.
Qed.

Lemma latency_nonneg (t0 t1 : Q) : (t0 <= t1)%Q -> (0 <= (t1 - t0) * 1000)%Q.
Proof.
  intros H. apply Qmult_le_0_compat; [|discriminate].
  unfold Qminus. now apply -> Qle_minus_iff.
Qed.

(** X3. The row stored for a request carries what the hooks measured:
    the next id of the sequence, the latency [(t_end - t_start) * 1000]
    (not negative when the clock did not run backwards), the caller's
    address (NULL exactly when Flask has none), and a user agent that is
    never NULL -- the empty string when the request has no User-Agent
    header.  The event sent to a reachable sink in the same cycle names
    the same method, endpoint and status code as the row. *)
Theorem stored_row_matches_request cw c w :
  session_new w = [] ->
  persists c = true ->
  exists row,
    api_requests (snd (serve_one cw c w)) = api_requests w ++ [row] /\
    id row = api_requests_id_seq w /\
    latency_ms row = ((cy_departure c - cy_arrival c) * 1000)%Q /\
    ((cy_arrival c <= cy_departure c)%Q -> (0 <= latency_ms row)%Q) /\
    ip_address row = remote_addr (cy_request c) /\
    (exists ua, user_agent row = Some ua) /\
    ((forall k v, In (k, v) (headers (cy_request c)) ->
                  lower k <> lower "User-Agent") ->
     user_agent row = Some "") /\
    (forall cl, cw = Some cl -> cy_sink_fault c = None ->
       exists ev,
         sink_events (snd (serve_one cw c w)) = sink_events w ++ [ev] /\
         ev_method ev = method row /\
         ev_endpoint ev = endpoint row /\
         ev_status_code ev = status_code row).
Proof.
  intros Hs Hp.
  destruct (serve_one_effect cw c w Hs) as (_ & Hr & _).
  destruct (serve_one_log_and_stream cw c w Hs) as (_ & He).
  simpl in Hr. rewrite Hp in Hr.
  exists (insert_row (api_requests_id_seq w) (utcnow_of (cy_departure c))
            (cycle_row c)).
  split; [exact Hr|].
  split; [reflexivity|]. split; [reflexivity|].
  split; [apply latency_nonneg|]. split; [reflexivity|].
  split; [eexists; reflexivity|].
  split.
  - intros Hmiss. cbn [user_agent insert_row cycle_row new_APIRequest t_user_agent].
    f_equal. now apply headers_get_missing.
  - intros cl Hcw Hsink. rewrite He. unfold cycle_event. rewrite Hcw, Hsink.
    eexists. split; [reflexivity|]. repeat split.
Qed.

Lemma stored_row_matches_request_witness :
  session_new (boot 10 None None) = [] /\
  persists (sample_cycle None None) = true /\
  exists row,
    api_requests (snd (serve_one (Some sample_client) (sample_cycle None None)
                         (boot 10 None None))) = [row] /\
    latency_ms row = (((21 # 2) - 10) * 1000)%Q /\
    user_agent row = Some "curl/8.0".
Proof.
  split; [reflexivity|]. split; [reflexivity|].
  destruct (stored_row_matches_request (Some sample_client)
              (sample_cycle None None) (boot 10 None None) eq_refl eq_refl)
    as (row & Hr & _ & Hl & _).
  exists row. split; [exact Hr|]. split; [exact Hl|].
  simpl in Hr. injection Hr as <-. reflexivity.
Defined.

(** * Properties of the start-up block *)

Lemma create_log_group_guarded_cases create_log_group name :
  create_log_group_guarded create_log_group name =
  match create_log_group name with
  | None => Ok tt
  | Some e => if already_exists e then Ok tt else Raise e
  end.
Proof.
  unfold create_log_group_guarded, already_exists.
  destruct (create_log_group name) as [[a|code|m|m|m| |m]|]; try reflexivity.
  destruct (String.eqb code "ResourceAlreadyExistsException"); reflexivity.
Qed.

(** X4. The start-up block never fails and prints at most one warning.
    The sink is left disabled exactly when a credential variable is unset
    or empty, or when creating the client raised.  Once the client is
    created it stays configured whatever [create_log_group] does: an
    already existing log group is passed over in silence, any other
    failure is printed and the client is kept.  The log group and stream
    names come from the environment, with their defaults. *)
Theorem init_cloudwatch_outcomes environ boto3_client create_log_group :
  (List.length
     (st_printed (init_cloudwatch environ boto3_client create_log_group))
   <= 1)%nat /\
  (st_cloudwatch_logs (init_cloudwatch environ boto3_client create_log_group)
     = None <->
   truthy (os_getenv environ "AWS_ACCESS_KEY_ID") = false \/
   truthy (os_getenv environ "AWS_SECRET_ACCESS_KEY") = false \/
   exists e,
     boto3_client (os_getenv_default environ "AWS_REGION" "us-east-1") = Some e) /\
  (forall cl,
     st_cloudwatch_logs (init_cloudwatch environ boto3_client create_log_group)
       = Some cl ->
     logGroupName cl =
       os_getenv_default environ "CLOUDWATCH_LOG_GROUP" "api-behavior-tracker" /\
     logStreamName cl =
       os_getenv_default environ "CLOUDWATCH_LOG_STREAM" "api-requests" /\
     st_printed (init_cloudwatch environ boto3_client create_log_group) =
       match create_log_group (logGroupName cl) with
       | None => []
       | Some e => if already_exists e then [] else [e]
       end) /\
  (truthy (os_getenv environ "AWS_ACCESS_KEY_ID") = false \/
   truthy (os_getenv environ "AWS_SECRET_ACCESS_KEY") = false ->
   st_printed (init_cloudwatch environ boto3_client create_log_group) = []).
Proof.
  unfold init_cloudwatch. cbv zeta.
  set (group := os_getenv_default environ "CLOUDWATCH_LOG_GROUP"
                  "api-behavior-tracker").
  set (stream := os_getenv_default environ "CLOUDWATCH_LOG_STREAM" "api-requests").
  set (region := os_getenv_default environ "AWS_REGION" "us-east-1").
  rewrite (create_log_group_guarded_cases create_log_group group).
  destruct (truthy (os_getenv environ "AWS_ACCESS_KEY_ID")) eqn:K;
    destruct (truthy (os_getenv environ "AWS_SECRET_ACCESS_KEY")) eqn:S;
    cbn [andb];
    try (split; [simpl; lia|]; split; [split; auto|];
         split; [discriminate|reflexivity]).
  destruct (boto3_client region) as [eb|] eqn:B.
  - split; [simpl; lia|]. split; [split; eauto|].
    split; [discriminate|]. intros [H|H]; discriminate.
  - assert (Hsome :
              st_cloudwatch_logs
                match
                  match create_log_group group with
                  | Some e => if already_exists e then Ok tt else Raise e
                  | None => Ok tt
                  end
                with
                | Ok _ => {| st_cloudwatch_logs :=
                               Some {| logGroupName := group;
                                       logStreamName := stream |};
                             st_printed := [] |}
                | Raise e => {| st_cloudwatch_logs :=
                                  Some {| logGroupName := group;
                                          logStreamName := stream |};
                                st_printed := [e] |}
                end
              = Some {| logGroupName := group; logStreamName := stream |}).
    { destruct (create_log_group group) as [ec|]; [|reflexivity].
      destruct (already_exists ec); reflexivity. }
    split.
    { destruct (create_log_group group) as [ec|]; [|simpl; lia].
      destruct (already_exists ec); simpl; lia. }
    split.
    { rewrite Hsome. split; [discriminate|].
      intros [H|[H|(ex & H)]]; discriminate. }
    split; [|intros [H|H]; discriminate].
    intros cl Hcl. rewrite Hsome in Hcl. injection Hcl as <-.
    cbn [logGroupName logStreamName].
    split; [reflexivity|]. split; [reflexivity|].
    destruct (create_log_group group) as [ec|]; [|reflexivity].
    destruct (already_exists ec); reflexivity.
Qed.

Lemma init_cloudwatch_outcomes_witness :
  st_cloudwatch_logs
    (init_cloudwatch environ_with_keys (fun _ => None)
       (fun _ => Some (OperationalError "could not connect")))
    = Some {| logGroupName := "tracker-prod"; logStreamName := "api-requests" |} /\
  st_printed
    (init_cloudwatch environ_with_keys (fun _ => None)
       (fun _ => Some (OperationalError "could not connect")))
    = [OperationalError "could not connect"] /\
  (truthy (os_getenv environ_empty_key "AWS_ACCESS_KEY_ID") = false \/
   truthy (os_getenv environ_empty_key "AWS_SECRET_ACCESS_KEY") = false) /\
  st_cloudwatch_logs
    (init_cloudwatch environ_empty_key (fun _ => None) (fun _ => None)) = None.
Proof.
  destruct (init_cloudwatch_outcomes environ_with_keys (fun _ => None)
              (fun _ => Some (OperationalError "could not connect")))
    as (_ & _ & H & _).
  destruct (H _ eq_refl) as (_ & _ & Hp).
  destruct (init_cloudwatch_outcomes environ_empty_key (fun _ => None)
              (fun _ => None)) as (_ & Hn & _).
  split; [reflexivity|]. split; [exact Hp|].
  split; [left; reflexivity|]. apply Hn. left. reflexivity.
Defined.

(** * Properties of the rounding functions *)

Lemma py_round_2 x :
  py_round x 2 = Qred (round_half_even (x * (100 # 1)) # 100).
Proof.
  unfold py_round, round_half_even. rewrite scale_2. cbv zeta.
  destruct (x * (100 # 1) - inject_Z (Qfloor (x * (100 # 1))) ?= 1 # 2)%Q;
    [destruct (Z.even _)| |]; reflexivity.
Qed.


Lemma round_half_even_near y :
  Qfloor y <= round_half_even y <= Qfloor y + 1.
Proof.
  unfold round_half_even. cbv zeta.
  destruct (y - inject_Z (Qfloor y) ?= 1 # 2)%Q;
    [destruct (Z.even _)| |]; lia.
Qed.

Lemma round_half_even_mono x y :
  (x <= y)%Q -> round_half_even x <= round_half_even y.
Proof.
  intros Hxy.
  pose proof (Qfloor_resp_le _ _ Hxy) as Hf.
  destruct (Z.eq_dec (Qfloor x) (Qfloor y)) as [E|NE].
  - unfold round_half_even. cbv zeta. rewrite E.
    destruct (Qcompare_spec (x - inject_Z (Qfloor y)) (1 # 2)) as [Hx|Hx|Hx];
      destruct (Qcompare_spec (y - inject_Z (Qfloor y)) (1 # 2)) as [Hy|Hy|Hy];
      try destruct (Z.even (Qfloor y)); try lia; exfalso; lra.
  - pose proof (round_half_even_near x). pose proof (round_half_even_near y). lia.
Qed.


Lemma Qred_hundredths_le (a b : Z) :
  a <= b -> (Qred (a # 100) <= Qred (b # 100))%Q.
Proof.
  intros H. rewrite !Qred_correct. unfold Qle. simpl. lia.
Qed.

Lemma py_round_mono x y : (x <= y)%Q -> (py_round x 2 <= py_round y 2)%Q.
Proof.
  intros H. rewrite !py_round_2. apply Qred_hundredths_le.
  apply round_half_even_mono. lra.
Qed.



(** * Further properties of the analytics views *)

(** ** Most used endpoints *)







Lemma StronglySorted_map {A B} (R : A -> A -> Prop) (S : B -> B -> Prop)
    (f : A -> B) l :
  (forall a b, R a b -> S (f a) (f b)) ->
  StronglySorted R l -> StronglySorted S (map f l).
Proof.
  intros HRS. induction 1 as [|a l Hs IH Ha]; simpl; constructor; [exact IH|].
  apply Forall_forall. intros b Hb. apply in_map_iff in Hb.
  destruct Hb as (b' & <- & Hb'). rewrite Forall_forall in Ha. auto.
Qed.


(** ** The views agree with one another *)

Lemma Zsum_app l1 l2 : Zsum (l1 ++ l2) = Zsum l1 + Zsum l2.
Proof. induction l1 as [|x l1 IH]; simpl; [reflexivity|]. rewrite IH. lia. Qed.





Lemma group_keys_cover W r : In r W -> In (key_of r) (group_keys W).
Proof. intros H. apply group_keys_In. eauto. Qed.





(** ** Bounds *)

Lemma inject_Z_pos (d : Z) : 0 < d -> (0 < inject_Z d)%Q.
Proof. intros H. unfold Qlt, inject_Z. simpl. lia. Qed.














(** ** Response times *)

Lemma Qmin_le a b : (Qmin a b <= a)%Q /\ (Qmin a b <= b)%Q.
Proof.
  unfold Qmin. destruct (Qle_bool a b) eqn:E.
  - apply Qle_bool_iff in E. split; [apply Qle_refl|exact E].
  - split; [|apply Qle_refl].
    destruct (Qlt_le_dec b a) as [H|H]; [now apply Qlt_le_weak|].
    apply Qle_bool_iff in H. congruence.
Qed.

Lemma Qmax_ge a b : (a <= Qmax a b)%Q /\ (b <= Qmax a b)%Q.
Proof.
  unfold Qmax. destruct (Qle_bool a b) eqn:E.
  - apply Qle_bool_iff in E. split; [exact E|apply Qle_refl].
  - split; [apply Qle_refl|].
    destruct (Qlt_le_dec b a) as [H|H]; [now apply Qlt_le_weak|].
    apply Qle_bool_iff in H. congruence.
Qed.

Lemma fold_Qmin_le l : forall a,
  (fold_left Qmin l a <= a)%Q /\
  (forall x, In x l -> (fold_left Qmin l a <= x)%Q).
Proof.
  induction l as [|y l IH]; intros a; simpl.
  - split; [apply Qle_refl|intros x []].
  - destruct (IH (Qmin a y)) as (H1 & H2). destruct (Qmin_le a y) as (Ha & Hy).
    split; [eapply Qle_trans; eassumption|].
    intros x [<-|Hx]; [eapply Qle_trans; eassumption|auto].
Qed.

Lemma fold_Qmax_ge l : forall a,
  (a <= fold_left Qmax l a)%Q /\
  (forall x, In x l -> (x <= fold_left Qmax l a)%Q).
Proof.
  induction l as [|y l IH]; intros a; simpl.
  - split; [apply Qle_refl|intros x []].
  - destruct (IH (Qmax a y)) as (H1 & H2). destruct (Qmax_ge a y) as (Ha & Hy).
    split; [eapply Qle_trans; eassumption|].
    intros x [<-|Hx]; [eapply Qle_trans; eassumption|auto].
Qed.

Lemma Qsum_bounds (l : list Q) (lo hi : Q) :
  (forall x, In x l -> (lo <= x)%Q /\ (x <= hi)%Q) ->
  (inject_Z (sql_count l) * lo <= Qsum l)%Q /\
  (Qsum l <= inject_Z (sql_count l) * hi)%Q.
Proof.
  induction l as [|x l IH]; intros H.
  - unfold sql_count. cbn [List.length Qsum fold_right].
    change (inject_Z (Z.of_nat 0)) with 0%Q. split; lra.
  - destruct (H x (or_introl eq_refl)) as (Hlo & Hhi).
    destruct IH as (IH1 & IH2); [intros y Hy; apply H; now right|].
    unfold sql_count in *. cbn [List.length Qsum fold_right].
    fold (Qsum l). rewrite Nat2Z.inj_succ. unfold Z.succ.
    rewrite inject_Z_plus. change (inject_Z 1) with 1%Q.
    revert IH1 IH2. generalize (inject_Z (Z.of_nat (List.length l))).
    intros n IH1 IH2. split; lra.
Qed.

(** Minimum, average and maximum of a non-empty column. *)
Lemma aggregates_ordered (l : list Q) :
  l <> [] ->
  exists mn av mx,
    sql_min l = Some mn /\ sql_avg l = Some av /\ sql_max l = Some mx /\
    (mn <= av)%Q /\ (av <= mx)%Q.
Proof.
  destruct l as [|a l]; [congruence|]. intros _.
  eexists. eexists. eexists.
  split; [reflexivity|]. split; [reflexivity|]. split; [reflexivity|].
  destruct (fold_Qmin_le l a) as (Hm1 & Hm2).
  destruct (fold_Qmax_ge l a) as (HM1 & HM2).
  destruct (Qsum_bounds (a :: l) (fold_left Qmin l a) (fold_left Qmax l a))
    as (Hs1 & Hs2).
  { intros x [<-|Hx]; auto. }
  assert (Hn : (0 < inject_Z (sql_count (a :: l)))%Q).
  { apply inject_Z_pos. unfold sql_count. cbn [List.length]. lia. }
  split.
  - apply Qle_shift_div_l; [exact Hn|]. rewrite Qmult_comm. exact Hs1.
  - apply Qle_shift_div_r; [exact Hn|]. rewrite Qmult_comm. exact Hs2.
Qed.

Lemma opt_geb_total (a b : LatencyGroup) :
  opt_geb (lg_avg_latency a) (lg_avg_latency b) = true \/
  opt_geb (lg_avg_latency b) (lg_avg_latency a) = true.
Proof.
  destruct (lg_avg_latency a) as [x|], (lg_avg_latency b) as [y|]; simpl; auto.
  rewrite !Qle_bool_iff.
  destruct (Qlt_le_dec x y) as [H|H]; [right; now apply Qlt_le_weak|now left].
Qed.

Lemma opt_geb_trans (a b c : LatencyGroup) :
  opt_geb (lg_avg_latency a) (lg_avg_latency b) = true ->
  opt_geb (lg_avg_latency b) (lg_avg_latency c) = true ->
  opt_geb (lg_avg_latency a) (lg_avg_latency c) = true.
Proof.
  destruct (lg_avg_latency a) as [x|], (lg_avg_latency b) as [y|],
    (lg_avg_latency c) as [z|]; simpl; try congruence.
  rewrite !Qle_bool_iff. intros H1 H2. eapply Qle_trans; eassumption.
Qed.

Lemma traverse_all_ok {A B} (f : A -> outcome B) (g : A -> B) l :
  (forall a, In a l -> f a = Ok (g a)) -> traverse f l = Ok (map g l).
Proof.
  induction l as [|a l IH]; intros H; simpl; [reflexivity|].
  rewrite (H a) by now left. simpl.
  rewrite IH by (intros b Hb; apply H; now right). reflexivity.
Qed.

Lemma StronglySorted_map_in {A B} (R : A -> A -> Prop) (S : B -> B -> Prop)
    (f : A -> B) l :
  (forall a b, In a l -> In b l -> R a b -> S (f a) (f b)) ->
  StronglySorted R l -> StronglySorted S (map f l).
Proof.
  intros HRS Hs. induction Hs as [|a l Hs IH Ha]; simpl; constructor.
  - apply IH. intros x y Hx Hy. apply HRS; now right.
  - apply Forall_forall. intros b Hb. apply in_map_iff in Hb.
    destruct Hb as (b' & <- & Hb'). rewrite Forall_forall in Ha.
    apply HRS; [now left|now right|auto].
Qed.

Lemma latency_group_aggregates W k :
  In k (group_keys W) ->
  exists mn av mx,
    lg_min_latency (latency_group W k) = Some mn /\
    lg_avg_latency (latency_group W k) = Some av /\
    lg_max_latency (latency_group W k) = Some mx /\
    (mn <= av)%Q /\ (av <= mx)%Q.
Proof.
  intros Hk. unfold latency_group. cbn [lg_min_latency lg_avg_latency lg_max_latency].
  apply aggregates_ordered.
  pose proof (group_nonempty W k Hk) as Hpos. unfold sql_count in Hpos.
  destruct (group k W); [simpl in Hpos; lia|discriminate].
Qed.

(** The view, in closed form: no aggregate of a group is NULL. *)
Lemma get_average_response_times_eq now rows hours :
  get_average_response_times now rows hours =
  Ok (hours,
      map row_of_group
        (order_by_desc
           (fun a b => opt_geb (lg_avg_latency a) (lg_avg_latency b))
           (map (latency_group (filter (since (now - timedelta_hours hours)) rows))
              (group_keys (filter (since (now - timedelta_hours hours)) rows))))).
Proof.
  unfold get_average_response_times. cbv zeta.
  set (W := filter (since (now - timedelta_hours hours)) rows).
  rewrite (traverse_all_ok _ row_of_group); [reflexivity|].
  intros g Hg. apply order_by_desc_In, in_map_iff in Hg.
  destruct Hg as (k & <- & Hk).
  destruct (latency_group_aggregates W k Hk) as (mn & av & mx & H1 & H2 & H3 & _).
  unfold response_time_row, row_of_group. rewrite H1, H2, H3. reflexivity.
Qed.

Lemma min_le_max (l : list Q) mn mx :
  sql_min l = Some mn -> sql_max l = Some mx -> (mn <= mx)%Q.
Proof.
  destruct l as [|a l]; [discriminate|]. simpl. intros [= <-] [= <-].
  destruct (fold_Qmin_le l a) as (H1 & _).
  destruct (fold_Qmax_ge l a) as (H2 & _).
  eapply Qle_trans; eassumption.
Qed.

(** The rows of the view once the threshold is known. *)
Lemma response_time_rows now rows hours :
  exists results,
    get_average_response_times now rows hours = Ok (hours, results) /\
    (forall r, In r rows -> since (now - timedelta_hours hours) r = true ->
       In (key_of r) (map rt_key results)) /\
    NoDup (map rt_key results) /\
    (forall row, In row results ->
       rt_request_count row =
         sql_count (group (rt_key row)
                      (filter (since (now - timedelta_hours hours)) rows)) /\
       1 <= rt_request_count row /\
       (rt_min_latency_ms row <= rt_max_latency_ms row)%Q) /\
    StronglySorted
      (fun a b => (rt_avg_latency_ms b <= rt_avg_latency_ms a)%Q) results.
Proof.
  rewrite get_average_response_times_eq.
  set (W := filter (since (now - timedelta_hours hours)) rows).
  set (geb := fun a b : LatencyGroup =>
                opt_geb (lg_avg_latency a) (lg_avg_latency b)).
  set (L := order_by_desc geb (map (latency_group W) (group_keys W))).
  assert (HL : forall g, In g L ->
                 exists k, In k (group_keys W) /\ g = latency_group W k).
  { intros g Hg. apply order_by_desc_In, in_map_iff in Hg.
    destruct Hg as (k & <- & Hk). eauto. }
  assert (Hkeys : map rt_key (map row_of_group L) = map lg_key L).
  { rewrite map_map. apply map_ext. intros g. unfold rt_key. cbn.
    now rewrite <- surjective_pairing. }
  assert (Hperm : Permutation (map lg_key L) (group_keys W)).
  { unfold L. rewrite (Permutation_map lg_key (order_by_desc_perm geb _)).
    rewrite map_map. cbn. now rewrite map_id. }
  eexists. split; [reflexivity|]. split; [|split; [|split]].
  - intros r Hr Hs. rewrite Hkeys.
    apply (Permutation_in _ (Permutation_sym Hperm)).
    apply group_keys_cover. unfold W. apply filter_In. auto.
  - rewrite Hkeys. apply (Permutation_NoDup (Permutation_sym Hperm)).
    apply group_keys_NoDup.
  - intros row Hin. apply in_map_iff in Hin. destruct Hin as (g & <- & Hg).
    destruct (HL g Hg) as (k & Hk & ->).
    destruct (latency_group_aggregates W k Hk)
      as (mn & av & mx & H1 & H2 & H3 & _).
    pose proof (min_le_max (map latency_ms (group k W)) mn mx H1 H3) as Hmm.
    unfold rt_key.
    cbn [rt_endpoint rt_method rt_request_count rt_min_latency_ms
         rt_max_latency_ms row_of_group].
    rewrite H1, H3. cbn [coalesce lg_key lg_request_count latency_group].
    rewrite <- surjective_pairing.
    split; [reflexivity|]. split; [pose proof (group_nonempty W k Hk); lia|].
    now apply py_round_mono.
  - apply (StronglySorted_map_in (fun a b => geb a b = true));
      [|apply (order_by_desc_sorted geb opt_geb_total opt_geb_trans)].
    intros a b Ha Hb Hab. fold L in Ha, Hb.
    destruct (HL a Ha) as (ka & Hka & ->). destruct (HL b Hb) as (kb & Hkb & ->).
    destruct (latency_group_aggregates W ka Hka) as (? & ava & ? & _ & Ea & _).
    destruct (latency_group_aggregates W kb Hkb) as (? & avb & ? & _ & Eb & _).
    unfold geb in Hab. cbn [rt_avg_latency_ms row_of_group].
    rewrite Ea, Eb in *. cbn [coalesce]. apply py_round_mono.
    simpl in Hab. now apply Qle_bool_iff in Hab.
Qed.

(** * The recorder feeds the views *)




(** * Limits and serialisation *)

Lemma firstn_firstn_le {A} (n m : Z) (l : list A) :
  0 <= n -> n <= m ->
  firstn (Z.to_nat n) (firstn (Z.to_nat m) l) = firstn (Z.to_nat n) l.
Proof.
  intros Hn Hm. rewrite firstn_firstn. f_equal. lia.
Qed.

Lemma sorted_desc_unique (l1 : list Z) : forall l2,
  Permutation l1 l2 ->
  StronglySorted (fun a b => b <= a) l1 ->
  StronglySorted (fun a b => b <= a) l2 ->
  l1 = l2.
Proof.
  induction l1 as [|a l1 IH]; intros l2 Hp H1 H2.
  - apply Permutation_nil in Hp. now subst.
  - destruct l2 as [|c l2].
    + apply Permutation_sym, Permutation_nil in Hp. discriminate.
    + apply StronglySorted_inv in H1. destruct H1 as (H1 & Ha).
      apply StronglySorted_inv in H2. destruct H2 as (H2 & Hc).
      rewrite Forall_forall in Ha, Hc.
      assert (Hac : a = c).
      { assert (Hin1 : In a (c :: l2))
          by (apply (Permutation_in _ Hp); now left).
        assert (Hin2 : In c (a :: l1))
          by (apply (Permutation_in _ (Permutation_sym Hp)); now left).
        destruct Hin1 as [E|Hin1]; [now symmetry|].
        destruct Hin2 as [E|Hin2]; [exact E|].
        specialize (Ha c Hin2). specialize (Hc a Hin1). lia. }
      subst c. f_equal. apply IH; [|assumption|assumption].
      now apply Permutation_cons_inv in Hp.
Qed.

(** Two orders the store may return show the same sequence of keys. *)
Lemma possible_orders_same_keys {A} (key : A -> Z) (l l1 l2 : list A) :
  possible_order (fun a b => key b <=? key a) l l1 ->
  possible_order (fun a b => key b <=? key a) l l2 ->
  map key l1 = map key l2.
Proof.
  intros (Hp1 & Hs1) (Hp2 & Hs2). apply sorted_desc_unique.
  - apply Permutation_map. rewrite Hp1. now symmetry.
  - apply (StronglySorted_map (fun a b => (key b <=? key a) = true));
      [|exact Hs1]. intros a b H. now apply Z.leb_le in H.
  - apply (StronglySorted_map (fun a b => (key b <=? key a) = true));
      [|exact Hs2]. intros a b H. now apply Z.leb_le in H.
Qed.

Lemma order_by_desc_possible {A} (key : A -> Z) (l : list A) :
  possible_order (fun a b => key b <=? key a) l
    (order_by_desc (fun a b => key b <=? key a) l).
Proof.
  split; [apply order_by_desc_perm|].
  apply order_by_desc_sorted.
  - intros a b. rewrite !Z.leb_le. lia.
  - intros a b c. rewrite !Z.leb_le. lia.
Qed.

(** X11. Lowering the limit only cuts the ranking short, whatever the
    store does with ties: for [n <= m], in any answer the most-used query
    may give for limit [n] the request counts are the first [n] request
    counts of any answer it may give for limit [m], and the timestamps of
    the recent requests for limit [n] are the first [n] timestamps of
    those for limit [m].  The answers of the two views are among the
    possible ones. *)
Theorem smaller_limit_gives_prefix now rows hours n m :
  n <= m ->
  (forall small large,
     possible_most_used (filter (since (now - timedelta_hours hours)) rows)
       n small ->
     possible_most_used (filter (since (now - timedelta_hours hours)) rows)
       m large ->
     map mu_request_count small =
       firstn (Z.to_nat n) (map mu_request_count large)) /\
  (forall few many,
     possible_recent (filter (since (now - timedelta_hours hours)) rows)
       n few ->
     possible_recent (filter (since (now - timedelta_hours hours)) rows)
       m many ->
     map timestamp few = firstn (Z.to_nat n) (map timestamp many)) /\
  (forall limit results,
     get_most_used_endpoints now rows limit hours = Ok (hours, results) ->
     possible_most_used (filter (since (now - timedelta_hours hours)) rows)
       limit results) /\
  (forall limit selected,
     recent_rows now rows limit hours = Ok selected ->
     possible_recent (filter (since (now - timedelta_hours hours)) rows)
       limit selected).
Proof.
  intros Hnm.
  set (W := filter (since (now - timedelta_hours hours)) rows).
  split; [|split; [|split]].
  - intros small large (Hn & L1 & Ho1 & ->) (Hm & L2 & Ho2 & ->).
    assert (E : forall k (L : list (pair_key * Z)),
              map mu_request_count
                (map (fun r => {| mu_endpoint := fst (fst r);
                                  mu_method := snd (fst r);
                                  mu_request_count := snd r |}) (firstn k L))
              = firstn k (map snd L)).
    { intros k L. rewrite map_map. exact (eq_sym (firstn_map snd k L)). }
    rewrite !E, (possible_orders_same_keys snd _ _ _ Ho1 Ho2).
    now rewrite firstn_firstn_le.
  - intros few many (Hn & L1 & Ho1 & ->) (Hm & L2 & Ho2 & ->).
    rewrite <- !firstn_map.
    rewrite (possible_orders_same_keys timestamp _ _ _ Ho1 Ho2).
    now rewrite firstn_firstn_le.
  - intros limit results. unfold get_most_used_endpoints, sql_limit. cbv zeta.
    destruct (Z.ltb_spec limit 0) as [C|Hl]; [discriminate|].
    cbn [bind_outcome]. intros [= <-]. split; [exact Hl|].
    eexists. split; [apply (order_by_desc_possible snd)|reflexivity].
  - intros limit selected. unfold recent_rows, sql_limit. cbv zeta.
    destruct (Z.ltb_spec limit 0) as [C|Hl]; [discriminate|].
    intros [= <-]. split; [exact Hl|].
    eexists. split; [apply (order_by_desc_possible timestamp)|reflexivity].
Qed.

Lemma smaller_limit_gives_prefix_witness :
  1 <= 3 /\
  exists small large,
    get_most_used_endpoints (100 * hour) five_recent 1 1 = Ok (1, small) /\
    get_most_used_endpoints (100 * hour) five_recent 3 1 = Ok (1, large) /\
    map mu_request_count small =
      firstn (Z.to_nat 1) (map mu_request_count large).
Proof.
  split; [lia|].
  destruct (smaller_limit_gives_prefix (100 * hour) five_recent 1 1 3
              ltac:(lia)) as (Hcounts & _ & Hposs & _).
  eexists. eexists. split; [reflexivity|]. split; [reflexivity|].
  apply Hcounts; apply Hposs; reflexivity.
Defined.

Lemma json_opt_str_inj a b : json_opt_str a = json_opt_str b -> a = b.
Proof.
  destruct a, b; simpl; intros H; try discriminate; congruence.
Qed.

(** X12. [to_dict] loses nothing: it always lists the same eight keys in
    the same order, and two records with the same dictionary are the same
    record -- in particular a NULL address or user agent is told apart
    from an empty string. *)
Theorem to_dict_is_faithful (a b : APIRequest) :
  map fst (to_dict a) =
    ["id"; "endpoint"; "method"; "status_code"; "latency_ms"; "timestamp";
     "ip_address"; "user_agent"] /\
  (to_dict a = to_dict b -> a = b).
Proof.
  split; [reflexivity|].
  destruct a, b. unfold to_dict. simpl.
  intros H. injection H as H1 H2 H3 H4 H5 H6 H7 H8.
  apply json_opt_str_inj in H7, H8. congruence.
Qed.

(** * Windows *)

Lemma group_window_mono k th1 th2 rows (p : APIRequest -> bool) :
  th2 <= th1 ->
  sql_count (filter p (group k (filter (since th1) rows))) <=
  sql_count (filter p (group k (filter (since th2) rows))).
Proof.
  intros Hth. unfold group. rewrite <- !filter_andb.
  apply sql_count_filter_mono. intros r Hr.
  apply andb_true_iff in Hr. destruct Hr as (Hs & Hr).
  rewrite (since_mono _ _ r Hth Hs). exact Hr.
Qed.

Lemma filter_true {A} (l : list A) : filter (fun _ => true) l = l.
Proof. induction l as [|x l IH]; simpl; [reflexivity|]. now rewrite IH. Qed.

(** With the thresholds taken on unbounded integers, widening the window
    never loses a pair of the error-rates view nor lowers its figures. *)
Lemma get_error_rates_grow now rows h1 h2 :
  h1 <= h2 ->
  exists narrow wide,
    get_error_rates now rows h1 = Ok (h1, narrow) /\
    get_error_rates now rows h2 = Ok (h2, wide) /\
    forall row1, In row1 narrow ->
      exists row2,
        In row2 wide /\ er_key row2 = er_key row1 /\
        er_total_requests row1 <= er_total_requests row2 /\
        er_error_count row1 <= er_error_count row2.
Proof.
  intros Hle. rewrite !get_error_rates_eq.
  eexists. eexists. split; [reflexivity|]. split; [reflexivity|].
  assert (Hth : now - timedelta_hours h2 <= now - timedelta_hours h1)
    by (unfold timedelta_hours; lia).
  set (W1 := filter (since (now - timedelta_hours h1)) rows).
  set (W2 := filter (since (now - timedelta_hours h2)) rows).
  intros row1 Hin. apply order_by_desc_In, in_map_iff in Hin.
  destruct Hin as (k & <- & Hk).
  exists (error_rate_of W2 k). split; [|split; [reflexivity|]].
  - apply order_by_desc_In, in_map.
    apply group_keys_In in Hk. destruct Hk as (r & Hr & Hkey).
    apply group_keys_In. exists r. split; [|exact Hkey].
    unfold W1 in Hr. apply filter_In in Hr. destruct Hr as (Hr & Hs).
    unfold W2. apply filter_In. split; [exact Hr|].
    now apply (since_mono _ _ r Hth).
  - cbn [er_total_requests er_error_count error_rate_of]. split.
    + pose proof (group_window_mono k _ _ rows (fun _ => true) Hth) as H.
      rewrite !filter_true in H. exact H.
    + now apply group_window_mono.
Qed.

Lemma filter_none {A} (p : A -> bool) l :
  (forall x, In x l -> p x = false) -> filter p l = [].
Proof.
  induction l as [|x l IH]; intros H; simpl; [reflexivity|].
  rewrite (H x) by now left. apply IH. intros y Hy. apply H. now right.
Qed.

(** With a threshold at [now] or later, a table whose records are all
    stamped before [now] looks empty to every query. *)
Lemma queries_see_nothing now rows limit hours :
  hours <= 0 ->
  0 <= limit ->
  (forall r, In r rows -> timestamp r < now) ->
  get_summary now rows hours =
    Ok (hours, {| total_requests := 0; error_count := 0;
                  error_rate_percent := 0; avg_latency_ms := 0;
                  unique_endpoints := 0 |}) /\
  get_most_used_endpoints now rows limit hours = Ok (hours, []) /\
  get_error_rates now rows hours = Ok (hours, []) /\
  get_average_response_times now rows hours = Ok (hours, []) /\
  get_recent_requests now rows limit hours = Ok {| count := 0; requests := [] |}.
Proof.
  intros Hh Hl Hpast.
  assert (HW : filter (since (now - timedelta_hours hours)) rows =
               filter (since (now - timedelta_hours hours)) []).
  { simpl. apply filter_none. intros r Hr. specialize (Hpast r Hr).
    unfold since, timedelta_hours. apply Z.leb_gt. lia. }
  destruct (views_read_the_window now hours rows [] HW)
    as (H1 & H2 & H3 & H4 & H5).
  rewrite H1, H2, H3, H4, H5.
  unfold get_most_used_endpoints, get_recent_requests, recent_rows, sql_limit.
  cbv zeta. destruct (Z.ltb_spec limit 0) as [C|_]; [lia|].
  simpl filter. rewrite !firstn_nil. repeat split.
Qed.

(** * The views behind Python's datetime arithmetic *)

Lemma time_threshold_cases now hours :
  match time_threshold now hours with
  | Ok th =>
      th = now - timedelta_hours hours /\ valid_datetime th /\
      -999999999 <= hours / 24 <= 999999999
  | Raise e =>
      (exists msg, e = OverflowError msg) /\
      (hours / 24 < -999999999 \/ 999999999 < hours / 24 \/
       now - timedelta_hours hours < datetime_min \/
       datetime_max < now - timedelta_hours hours)
  end.
Proof.
  unfold time_threshold, timedelta, datetime_sub, valid_datetime.
  destruct (Z.leb_spec (-999999999) (hours / 24));
    destruct (Z.leb_spec (hours / 24) 999999999); cbn [andb bind_outcome];
    try (split; [eexists; reflexivity|lia]).
  destruct (Z.leb_spec datetime_min (now - timedelta_hours hours));
    destruct (Z.leb_spec (now - timedelta_hours hours) datetime_max);
    cbn [andb]; [split; [reflexivity|lia]| | |];
    (split; [eexists; reflexivity|lia]).
Qed.

Lemma time_threshold_ok now hours :
  -999999999 <= hours / 24 <= 999999999 ->
  valid_datetime (now - timedelta_hours hours) ->
  time_threshold now hours = Ok (now - timedelta_hours hours).
Proof.
  intros Hd Hv. pose proof (time_threshold_cases now hours) as H.
  destruct (time_threshold now hours) as [th|e].
  - destruct H as (-> & _). reflexivity.
  - unfold valid_datetime in Hv. destruct H as (_ & H). lia.
Qed.

(** A positive window reaching back no further than year 1. *)
Lemma time_threshold_past now hours :
  valid_datetime now -> 0 < hours ->
  datetime_min <= now - timedelta_hours hours ->
  time_threshold now hours = Ok (now - timedelta_hours hours).
Proof.
  unfold valid_datetime, datetime_min, datetime_max, timedelta_hours.
  intros Hnow Hpos Hmin. apply time_threshold_ok.
  - Z.div_mod_to_equations. lia.
  - unfold valid_datetime, datetime_min, datetime_max, timedelta_hours. lia.
Qed.

Lemma bounded_get_summary_ok now rows hours th :
  time_threshold now hours = Ok th ->
  Bounded.get_summary now rows hours = get_summary now rows hours.
Proof. intros H. unfold Bounded.get_summary. now rewrite H. Qed.

(** C10, as the code has it.  With [now] and the table fixed and
    [0 < h1 <= h2], the summary counts at least as many requests and
    errors over [h2] hours as over [h1] hours -- as long as [now - h2]
    hours is still a datetime, which is when both queries return.  Once
    [now - h2] hours falls before year 1 the query for [h2] raises
    [OverflowError] and has no counts to compare. *)
Theorem summary_monotone_while_in_range now rows h1 h2 :
  valid_datetime now ->
  0 < h1 ->
  h1 <= h2 ->
  (datetime_min <= now - timedelta_hours h2 ->
   exists s1 s2,
     Bounded.get_summary now rows h1 = Ok (h1, s1) /\
     Bounded.get_summary now rows h2 = Ok (h2, s2) /\
     total_requests s1 <= total_requests s2 /\
     error_count s1 <= error_count s2) /\
  (now - timedelta_hours h2 < datetime_min ->
   exists msg,
     Bounded.get_summary now rows h2 = Raise (OverflowError msg)).
Proof.
  intros Hnow Hpos Hle. split.
  - intros Hmin.
    assert (Hmin1 : datetime_min <= now - timedelta_hours h1)
      by (unfold timedelta_hours in *; lia).
    rewrite (bounded_get_summary_ok now rows h1 _
               (time_threshold_past now h1 Hnow Hpos Hmin1)).
    rewrite (bounded_get_summary_ok now rows h2 _
               (time_threshold_past now h2 Hnow ltac:(lia) Hmin)).
    now apply get_summary_monotone.
  - intros Hout. unfold Bounded.get_summary.
    pose proof (time_threshold_cases now h2) as H.
    destruct (time_threshold now h2) as [th|e].
    + destruct H as (-> & Hv & _). unfold valid_datetime in Hv. lia.
    + destruct H as ((msg & ->) & _). exists msg. reflexivity.
Qed.

Lemma summary_monotone_while_in_range_witness :
  valid_datetime nov_3_2026 /\ 0 < 24 /\ 24 <= 48 /\
  datetime_min <= nov_3_2026 - timedelta_hours 48 /\
  exists s1 s2,
    Bounded.get_summary nov_3_2026 rows_2026 24
      = Ok (24, s1) /\
    Bounded.get_summary nov_3_2026 rows_2026 48
      = Ok (48, s2) /\
    total_requests s1 <= total_requests s2 /\
    error_count s1 <= error_count s2.
Proof.
  assert (Hv : valid_datetime nov_3_2026) by (split; discriminate).
  assert (Hm : datetime_min <= nov_3_2026 - timedelta_hours 48) by discriminate.
  split; [exact Hv|]. split; [lia|]. split; [lia|]. split; [exact Hm|].
  apply (proj1 (summary_monotone_while_in_range nov_3_2026
                  rows_2026 24 48 Hv
                  ltac:(lia) ltac:(lia))).
  exact Hm.
Defined.

(** C10 as worded speaks of all positive [h1 <= h2].  On 2026-11-03 the
    query for twenty million hours has no answer: the threshold would lie
    before year 1. *)
Lemma summary_fails_beyond_year_one :
  ~ (forall now rows h1 h2,
       valid_datetime now -> 0 < h1 -> h1 <= h2 ->
       exists s1 s2,
         Bounded.get_summary now rows h1 = Ok (h1, s1) /\
         Bounded.get_summary now rows h2 = Ok (h2, s2) /\
         total_requests s1 <= total_requests s2 /\
         error_count s1 <= error_count s2).
Proof.
  intros H.
  destruct (H nov_3_2026 [] 24 20000000) as (s1 & s2 & _ & H2 & _).
  - split; discriminate.
  - lia.
  - lia.
  - vm_compute in H2. discriminate.
Qed.

(** X9. The response-times view answers exactly when [now - hours] is a
    datetime, and raises [OverflowError] otherwise.  Its answer has one
    row for each pair with a record in the window; a row's
    [request_count] is the number of in-window records of its pair, its
    rounded minimum is not above its rounded maximum, and the rows come
    in descending order of rounded average latency. *)
Theorem response_times_consistent now rows hours :
  match Bounded.get_average_response_times now rows hours with
  | Ok (h, results) =>
      h = hours /\
      valid_datetime (now - timedelta_hours hours) /\
      (forall r, In r rows -> since (now - timedelta_hours hours) r = true ->
         In (key_of r) (map rt_key results)) /\
      NoDup (map rt_key results) /\
      (forall row, In row results ->
         rt_request_count row =
           sql_count (group (rt_key row)
                        (filter (since (now - timedelta_hours hours)) rows)) /\
         1 <= rt_request_count row /\
         (rt_min_latency_ms row <= rt_max_latency_ms row)%Q) /\
      StronglySorted
        (fun a b => (rt_avg_latency_ms b <= rt_avg_latency_ms a)%Q) results
  | Raise e =>
      (exists msg, e = OverflowError msg) /\
      (hours / 24 < -999999999 \/ 999999999 < hours / 24 \/
       now - timedelta_hours hours < datetime_min \/
       datetime_max < now - timedelta_hours hours)
  end.
Proof.
  unfold Bounded.get_average_response_times.
  pose proof (time_threshold_cases now hours) as Hth.
  destruct (time_threshold now hours) as [th|e]; cbn [bind_outcome]; [|exact Hth].
  destruct Hth as (-> & Hv & _).
  destruct (response_time_rows now rows hours) as (results & -> & H).
  split; [reflexivity|]. split; [exact Hv|exact H].
Qed.

(** X13. Widening the window never loses a pair nor lowers its figures:
    for [h1 <= h2] with both thresholds inside datetime's range, both
    error-rates queries return, and every row over [h1] hours has a row
    for the same pair over [h2] hours with at least the same total and at
    least the same error count.  A threshold outside the range makes its
    query raise instead. *)
Theorem error_rates_grow_with_window now rows h1 h2 th1 th2 :
  h1 <= h2 ->
  time_threshold now h1 = Ok th1 ->
  time_threshold now h2 = Ok th2 ->
  exists narrow wide,
    Bounded.get_error_rates now rows h1 = Ok (h1, narrow) /\
    Bounded.get_error_rates now rows h2 = Ok (h2, wide) /\
    forall row1, In row1 narrow ->
      exists row2,
        In row2 wide /\ er_key row2 = er_key row1 /\
        er_total_requests row1 <= er_total_requests row2 /\
        er_error_count row1 <= er_error_count row2.
Proof.
  intros Hle H1 H2. unfold Bounded.get_error_rates. rewrite H1, H2.
  cbn [bind_outcome]. now apply get_error_rates_grow.
Qed.

Lemma error_rates_grow_with_window_witness :
  24 <= 48 /\
  time_threshold nov_3_2026 24 = Ok (nov_3_2026 - timedelta_hours 24) /\
  time_threshold nov_3_2026 48 = Ok (nov_3_2026 - timedelta_hours 48) /\
  exists narrow wide,
    Bounded.get_error_rates nov_3_2026 rows_2026 24 = Ok (24, narrow) /\
    Bounded.get_error_rates nov_3_2026 rows_2026 48 = Ok (48, wide) /\
    forall row1, In row1 narrow ->
      exists row2,
        In row2 wide /\ er_key row2 = er_key row1 /\
        er_total_requests row1 <= er_total_requests row2 /\
        er_error_count row1 <= er_error_count row2.
Proof.
  split; [lia|]. split; [reflexivity|]. split; [reflexivity|].
  apply (error_rates_grow_with_window nov_3_2026 rows_2026 24 48
           (nov_3_2026 - timedelta_hours 24) (nov_3_2026 - timedelta_hours 48));
    [lia|reflexivity|reflexivity].
Defined.

(** X14. [hours] is not validated: zero or a negative number is accepted
    and puts the threshold at [now] or later.  Over a table whose records
    are all stamped before [now], every view then answers as for an empty
    table -- an all-zero summary and empty lists -- unless the threshold
    leaves datetime's range, in which case every view raises
    [OverflowError]. *)
Theorem nonpositive_hours_see_nothing now rows limit hours :
  hours <= 0 ->
  0 <= limit ->
  (forall r, In r rows -> timestamp r < now) ->
  match time_threshold now hours with
  | Ok _ =>
      Bounded.get_summary now rows hours =
        Ok (hours, {| total_requests := 0; error_count := 0;
                      error_rate_percent := 0; avg_latency_ms := 0;
                      unique_endpoints := 0 |}) /\
      Bounded.get_most_used_endpoints now rows limit hours = Ok (hours, []) /\
      Bounded.get_error_rates now rows hours = Ok (hours, []) /\
      Bounded.get_average_response_times now rows hours = Ok (hours, []) /\
      Bounded.get_recent_requests now rows limit hours =
        Ok {| count := 0; requests := [] |}
  | Raise e =>
      (exists msg, e = OverflowError msg) /\
      Bounded.get_summary now rows hours = Raise e /\
      Bounded.get_most_used_endpoints now rows limit hours = Raise e /\
      Bounded.get_error_rates now rows hours = Raise e /\
      Bounded.get_average_response_times now rows hours = Raise e /\
      Bounded.get_recent_requests now rows limit hours = Raise e
  end.
Proof.
  intros Hh Hl Hpast.
  unfold Bounded.get_summary, Bounded.get_most_used_endpoints,
    Bounded.get_error_rates, Bounded.get_average_response_times,
    Bounded.get_recent_requests.
  pose proof (time_threshold_cases now hours) as Hth.
  destruct (time_threshold now hours) as [th|e]; cbn [bind_outcome].
  - now apply queries_see_nothing.
  - destruct Hth as (Hmsg & _). repeat split; [exact Hmsg].
Qed.

Lemma nonpositive_hours_see_nothing_witness :
  -1 <= 0 /\ 0 <= 10 /\
  (forall r, In r five_recent -> timestamp r < nov_3_2026) /\
  Bounded.get_recent_requests nov_3_2026 five_recent 10 (-1)
    = Ok {| count := 0; requests := [] |} /\
  Bounded.get_recent_requests nov_3_2026 five_recent 10 (-70000000)
    = Raise (OverflowError "date value out of range").
Proof.
  assert (H : forall r, In r five_recent -> timestamp r < nov_3_2026).
  { intros r Hr. simpl in Hr.
    repeat (destruct Hr as [<-|Hr]; [vm_compute; reflexivity|]).
    destruct Hr. }
  split; [lia|]. split; [lia|]. split; [exact H|].
  pose proof (nonpositive_hours_see_nothing nov_3_2026 five_recent 10 (-1)
                ltac:(lia) ltac:(lia) H) as H1.
  pose proof (nonpositive_hours_see_nothing nov_3_2026 five_recent 10 (-70000000)
                ltac:(lia) ltac:(lia) H) as H2.
  change (time_threshold nov_3_2026 (-1))
    with (Ok (A:=Z) (nov_3_2026 - timedelta_hours (-1))) in H1.
  change (time_threshold nov_3_2026 (-70000000))
    with (Raise (A:=Z) (OverflowError "date value out of range")) in H2.
  destruct H1 as (_ & _ & _ & _ & H1).
  destruct H2 as (_ & _ & _ & _ & _ & H2).
  split; [exact H1|exact H2].
Defined.
